(** * Front Door Support Agent: routing, escalation and resolution logic

    A shallow embedding of the decision core of the backend
    ([app/agents/router_agent.py], [app/agents/action_agent.py],
    [app/models/enums.py], [app/models/schemas.py], [app/core/config.py],
    [app/services/mock/ticket_service.py], [app/services/mock/llm_service.py])
    and the properties proved about it, with the administration methods of
    the mock ticket service, the clarification question of the mock LLM
    service and the health endpoint of [app/api/routes.py].

    Conventions of the embedding:
    - a Python [float] is a binary64 value, here a primitive [float];
      [a >= b] is [b <=? a] and [a < b] is [a <? b] (IEEE comparisons);
    - a Python [int] is a [Z];
    - a Python [str] is a [string], one element per character;
    - a [dict] whose iteration order is observed is an association list,
      a [dict] used as a map is a [gmap], a [set] is a [gset];
    - a call that may raise returns an [Outcome]; the collaborators of the
      action agent run in [Eff W], which threads the state [W] of the
      outside world and keeps whatever was written before an exception;
    - a method that raises a built-in exception itself returns a [Result];
    - [datetime] and its parser belong to the standard library of Python:
      the methods that use them take them as parameters. *)

From Stdlib Require Import Floats ZArith String Ascii List Bool Lia.
From stdpp Require Import gmap strings list pretty.

Open Scope string_scope.
Open Scope list_scope.
Open Scope Z_scope.

(** ** Python primitives used by the code *)

(** Comparison of two floats as Python writes it. *)
Definition float_ge (a b : float) : bool := (b <=? a)%float.
Definition float_lt (a b : float) : bool := (a <? b)%float.

(** The constraint [Field(ge=0.0, le=1.0)] of a confidence or a threshold. *)
Definition in_unit_interval (x : float) : bool :=
  (0 <=? x)%float && (x <=? 1)%float.

Definition is_upper (c : ascii) : bool :=
  let n := nat_of_ascii c in ((65 <=? n) && (n <=? 90))%nat.
Definition is_lower (c : ascii) : bool :=
  let n := nat_of_ascii c in ((97 <=? n) && (n <=? 122))%nat.
Definition is_digit (c : ascii) : bool :=
  let n := nat_of_ascii c in ((48 <=? n) && (n <=? 57))%nat.
Definition to_lower (c : ascii) : ascii :=
  if is_upper c then ascii_of_nat (nat_of_ascii c + 32) else c.
Definition to_upper (c : ascii) : ascii :=
  if is_lower c then ascii_of_nat (nat_of_ascii c - 32) else c.

(** [s.lower()] *)
Fixpoint str_lower (s : string) : string :=
  match s with
  | EmptyString => EmptyString
  | String c r => String (to_lower c) (str_lower r)
  end.

(** [s.replace(a, b)] for single characters [a] and [b]. *)
Fixpoint str_replace_char (a b : ascii) (s : string) : string :=
  match s with
  | EmptyString => EmptyString
  | String c r =>
      String (if Ascii.eqb c a then b else c) (str_replace_char a b r)
  end.

(** [s.replace(a, b)] for a single character [a] and a string [b]. *)
Fixpoint str_replace_char_by (a : ascii) (b : string) (s : string) : string :=
  match s with
  | EmptyString => EmptyString
  | String c r =>
      (if Ascii.eqb c a then b else String c EmptyString)
      +:+ str_replace_char_by a b r
  end.

(** [s.title()]: a letter that follows a letter is lowered, any other letter
    is raised; [prev] tells whether the previous character was a letter. *)
Fixpoint str_title_from (prev : bool) (s : string) : string :=
  match s with
  | EmptyString => EmptyString
  | String c r =>
      let cased := is_upper c || is_lower c in
      String (if prev then to_lower c else to_upper c) (str_title_from cased r)
  end.
Definition str_title (s : string) : string := str_title_from false s.

(** [s[:n]] *)
Fixpoint str_take (n : nat) (s : string) : string :=
  match n, s with
  | S k, String c r => String c (str_take k r)
  | _, _ => EmptyString
  end.

(** [sep.join(parts)] *)
Fixpoint str_join (sep : string) (parts : list string) : string :=
  match parts with
  | [] => ""
  | [p] => p
  | p :: rest => p +:+ sep +:+ str_join sep rest
  end.

Definition newline : string := String (ascii_of_nat 10) EmptyString.

(** [str(n)] of an int. *)
Definition str_of_int (n : Z) : string := pretty n.

(** ** Exceptions *)

Inductive Exn : Type :=
  | ValidationError (fields : list string)   (* pydantic, a ValueError *)
  | AttributeError (what : string)
  | ServiceError (what : string).            (* raised by a collaborator *)

Inductive Outcome (A : Type) : Type :=
  | Returned (a : A)
  | Raised (e : Exn).
Arguments Returned {A} a.
Arguments Raised {A} e.

(** Built-in exceptions that the administration methods of the ticket
    service and the question builder raise themselves. *)
Inductive PyError : Type :=
  | ValueError (what : string)   (* an enum value or a date that does not parse *)
  | IndexError.                  (* a list index out of range *)

Inductive Result (A : Type) : Type :=
  | Ok (a : A)
  | Err (e : PyError).
Arguments Ok {A} a.
Arguments Err {A} e.

Definition result_bind {A B : Type} (c : Result A) (k : A -> Result B)
  : Result B :=
  match c with
  | Ok a => k a
  | Err e => Err e
  end.

Notation "'let?' x ':=' c 'in' k" := (result_bind c (fun x => k))
  (at level 10, x pattern, c at level 100, k at level 200).

(** [l[i]] for an index that is not negative. *)
Definition item {A : Type} (l : list A) (i : nat) : Result A :=
  match l !! i with
  | Some x => Ok x
  | None => Err IndexError
  end.

(** ** app/models/enums.py *)

Module Department.
Inductive t : Type :=
  | IT | HR | REGISTRAR | FINANCIAL_AID | FACILITIES
  | STUDENT_AFFAIRS | CAMPUS_SAFETY | ESCALATE_TO_HUMAN.
#[global] Instance eq_dec : EqDecision t.
Proof. solve_decision. Defined.
Definition value (d : t) : string :=
  match d with
  | IT => "IT" | HR => "HR" | REGISTRAR => "REGISTRAR"
  | FINANCIAL_AID => "FINANCIAL_AID" | FACILITIES => "FACILITIES"
  | STUDENT_AFFAIRS => "STUDENT_AFFAIRS" | CAMPUS_SAFETY => "CAMPUS_SAFETY"
  | ESCALATE_TO_HUMAN => "ESCALATE_TO_HUMAN"
  end.
Definition members : list t :=
  [ IT; HR; REGISTRAR; FINANCIAL_AID; FACILITIES; STUDENT_AFFAIRS;
    CAMPUS_SAFETY; ESCALATE_TO_HUMAN ].
End Department.

Module Priority.
Inductive t : Type := LOW | MEDIUM | HIGH | URGENT.
#[global] Instance eq_dec : EqDecision t.
Proof. solve_decision. Defined.
Definition value (p : t) : string :=
  match p with
  | LOW => "LOW" | MEDIUM => "MEDIUM" | HIGH => "HIGH" | URGENT => "URGENT"
  end.
Definition members : list t := [LOW; MEDIUM; HIGH; URGENT].
End Priority.

Module Sentiment.
Inductive t : Type := NEUTRAL | FRUSTRATED | URGENT | SATISFIED.
#[global] Instance eq_dec : EqDecision t.
Proof. solve_decision. Defined.
Definition value (s : t) : string :=
  match s with
  | NEUTRAL => "NEUTRAL" | FRUSTRATED => "FRUSTRATED"
  | URGENT => "URGENT" | SATISFIED => "SATISFIED"
  end.
End Sentiment.

Module ActionStatus.
Inductive t : Type :=
  | CREATED | ESCALATED | PENDING_CLARIFICATION | KB_ONLY | ERROR.
#[global] Instance eq_dec : EqDecision t.
Proof. solve_decision. Defined.
Definition value (s : t) : string :=
  match s with
  | CREATED => "created" | ESCALATED => "escalated"
  | PENDING_CLARIFICATION => "pending_clarification"
  | KB_ONLY => "kb_only" | ERROR => "error"
  end.
End ActionStatus.

Module EscalationReason.
Inductive t : Type :=
  | CONFIDENCE_TOO_LOW | POLICY_KEYWORD_DETECTED | SENSITIVE_TOPIC
  | MULTI_DEPARTMENT | USER_REQUESTED_HUMAN | MAX_CLARIFICATIONS_EXCEEDED.
#[global] Instance eq_dec : EqDecision t.
Proof. solve_decision. Defined.
Definition value (r : t) : string :=
  match r with
  | CONFIDENCE_TOO_LOW => "confidence_too_low"
  | POLICY_KEYWORD_DETECTED => "policy_keyword_detected"
  | SENSITIVE_TOPIC => "sensitive_topic"
  | MULTI_DEPARTMENT => "multi_department"
  | USER_REQUESTED_HUMAN => "user_requested_human"
  | MAX_CLARIFICATIONS_EXCEEDED => "max_clarifications_exceeded"
  end.
End EscalationReason.

Module IntentCategory.
Inductive t : Type :=
  | ACCOUNT_ACCESS | ACADEMIC_RECORDS | FINANCIAL | FACILITIES | ENROLLMENT
  | STUDENT_SERVICES | POLICY_EXCEPTION | GENERAL_INQUIRY | STATUS_CHECK
  | HUMAN_REQUEST.
#[global] Instance eq_dec : EqDecision t.
Proof. solve_decision. Defined.
Definition value (c : t) : string :=
  match c with
  | ACCOUNT_ACCESS => "ACCOUNT_ACCESS" | ACADEMIC_RECORDS => "ACADEMIC_RECORDS"
  | FINANCIAL => "FINANCIAL" | FACILITIES => "FACILITIES"
  | ENROLLMENT => "ENROLLMENT" | STUDENT_SERVICES => "STUDENT_SERVICES"
  | POLICY_EXCEPTION => "POLICY_EXCEPTION"
  | GENERAL_INQUIRY => "GENERAL_INQUIRY" | STATUS_CHECK => "STATUS_CHECK"
  | HUMAN_REQUEST => "HUMAN_REQUEST"
  end.
End IntentCategory.

Module TicketStatus.
Inductive t : Type := OPEN | IN_PROGRESS | PENDING_INFO | RESOLVED | CLOSED.
#[global] Instance eq_dec : EqDecision t.
Proof. solve_decision. Defined.
Definition value (s : t) : string :=
  match s with
  | OPEN => "open" | IN_PROGRESS => "in_progress"
  | PENDING_INFO => "pending_info" | RESOLVED => "resolved"
  | CLOSED => "closed"
  end.
Definition members : list t :=
  [OPEN; IN_PROGRESS; PENDING_INFO; RESOLVED; CLOSED].
End TicketStatus.

(** [E(v)] for an enumeration [E]: the member whose value is [v], and
    ValueError when there is none. *)
Definition enum_of_value {E : Type} (members : list E) (value : E -> string)
    (v : string) : Result E :=
  match List.find (fun e => bool_decide (value e = v)) members with
  | Some e => Ok e
  | None => Err (ValueError v)
  end.

(** ** app/core/config.py: the settings the agents read *)

Record Settings : Type := {
  max_clarification_attempts : Z;
  confidence_threshold : float;
  sla_urgent_hours : Z;
  sla_high_hours : Z;
  sla_medium_hours : Z;
  sla_low_hours : Z
}.

(** The defaults of the [Field] declarations. *)
Definition default_settings : Settings := {|
  max_clarification_attempts := 3;
  confidence_threshold := 0x1.6666666666666p-1%float;   (* 0.70 *)
  sla_urgent_hours := 1;
  sla_high_hours := 4;
  sla_medium_hours := 24;
  sla_low_hours := 72
|}.

(** ** app/models/schemas.py *)

(** A value of an [entities] dict: [isinstance(v, str)] tells the two cases
    apart, and [rendered] is [str(v)] for a value that is not a string. *)
Inductive EntityValue : Type :=
  | EStr (s : string)
  | EOther (rendered : string).

Definition entity_str (v : EntityValue) : string :=
  match v with EStr s => s | EOther r => r end.

Record KnowledgeArticle : Type := {
  article_id : string;
  title : string;
  url : string;
  snippet : option string;
  relevance_score : float;
  ka_department : option Department.t
}.

Record QueryResult : Type := {
  intent : string;
  intent_category : IntentCategory.t;
  department_suggestion : Department.t;
  entities : list (string * EntityValue);
  confidence : float;
  requires_escalation : bool;
  pii_detected : bool;
  pii_types : list string;
  sentiment : Sentiment.t;
  urgency_indicators : list string
}.

Record RoutingDecision : Type := {
  department : Department.t;
  priority : Priority.t;
  escalate_to_human : bool;
  escalation_reason : option EscalationReason.t;
  suggested_sla_hours : Z;
  routing_rules_applied : list string
}.

(** [v is None] *)
Definition is_None {A : Type} (v : option A) : bool :=
  match v with None => true | Some _ => false end.

(** The field validator [require_reason_if_escalated]: [false] when it
    raises. *)
Definition require_reason_if_escalated
    (escalate : bool) (v : option EscalationReason.t) : bool :=
  negb (escalate && is_None v).

(** Construction of a [RoutingDecision]: the validator of
    [escalation_reason] and the constraint [gt=0] of [suggested_sla_hours];
    the error names the fields that failed. *)
Definition RoutingDecision_new
    (department : Department.t) (priority : Priority.t)
    (escalate_to_human : bool) (escalation_reason : option EscalationReason.t)
    (suggested_sla_hours : Z) (routing_rules_applied : list string)
  : Outcome RoutingDecision :=
  let failed :=
    (if require_reason_if_escalated escalate_to_human escalation_reason
     then [] else ["escalation_reason"]) ++
    (if 0 <? suggested_sla_hours then [] else ["suggested_sla_hours"]) in
  match failed with
  | [] => Returned {| department := department;
                      priority := priority;
                      escalate_to_human := escalate_to_human;
                      escalation_reason := escalation_reason;
                      suggested_sla_hours := suggested_sla_hours;
                      routing_rules_applied := routing_rules_applied |}
  | _ => Raised (ValidationError failed)
  end.

(** The field validator [require_reason_if_escalated] of [AuditLog], whose
    reason is a string: [false] when it raises. *)
Definition AuditLog_require_reason_if_escalated
    (escalated : bool) (v : option string) : bool :=
  negb (escalated && is_None v).

(** ** app/agents/router_agent.py *)

Module RouterAgent.

Definition CATEGORY_TO_DEPARTMENT (c : IntentCategory.t)
  : option Department.t :=
  match c with
  | IntentCategory.ACCOUNT_ACCESS => Some Department.IT
  | IntentCategory.ACADEMIC_RECORDS => Some Department.REGISTRAR
  | IntentCategory.FINANCIAL => Some Department.FINANCIAL_AID
  | IntentCategory.FACILITIES => Some Department.FACILITIES
  | IntentCategory.ENROLLMENT => Some Department.REGISTRAR
  | IntentCategory.STUDENT_SERVICES => Some Department.STUDENT_AFFAIRS
  | IntentCategory.POLICY_EXCEPTION => Some Department.STUDENT_AFFAIRS
  | IntentCategory.GENERAL_INQUIRY => Some Department.IT
  | IntentCategory.STATUS_CHECK => Some Department.IT
  | IntentCategory.HUMAN_REQUEST => Some Department.ESCALATE_TO_HUMAN
  end.

Definition ESCALATION_INTENTS : gset string :=
  {[ "grade_appeal"; "withdrawal_request"; "waiver_request";
     "refund_request"; "request_human"; "speak_to_person" ]}.

Section WithSettings.
Variable _settings : Settings.

Definition _determine_priority (query_result : QueryResult) : Priority.t :=
  if requires_escalation query_result then Priority.URGENT
  else if bool_decide (sentiment query_result = Sentiment.FRUSTRATED)
  then Priority.HIGH
  else if bool_decide (sentiment query_result = Sentiment.URGENT)
  then Priority.HIGH
  else if negb (bool_decide (urgency_indicators query_result = []))
  then Priority.HIGH
  else if float_ge (confidence query_result)
                   (confidence_threshold _settings)
  then Priority.MEDIUM
  else if bool_decide
            (intent_category query_result = IntentCategory.GENERAL_INQUIRY)
  then Priority.LOW
  else Priority.MEDIUM.

Definition _check_escalation
    (query_result : QueryResult) (clarification_attempts : Z)
  : bool * option EscalationReason.t :=
  if requires_escalation query_result then
    if bool_decide
         (intent_category query_result = IntentCategory.HUMAN_REQUEST)
    then (true, Some EscalationReason.USER_REQUESTED_HUMAN)
    else if bool_decide
         (intent_category query_result = IntentCategory.POLICY_EXCEPTION)
    then (true, Some EscalationReason.POLICY_KEYWORD_DETECTED)
    else (true, Some EscalationReason.SENSITIVE_TOPIC)
  else if bool_decide (intent query_result ∈ ESCALATION_INTENTS) then
    if bool_decide (intent query_result = "request_human")
       || bool_decide (intent query_result = "speak_to_person")
    then (true, Some EscalationReason.USER_REQUESTED_HUMAN)
    else (true, Some EscalationReason.POLICY_KEYWORD_DETECTED)
  else if float_lt (confidence query_result)
                   (confidence_threshold _settings) then
    if max_clarification_attempts _settings <=? clarification_attempts
    then (true, Some EscalationReason.MAX_CLARIFICATIONS_EXCEEDED)
    else (false, None)
  else (false, None).

Definition _get_sla_hours (priority : Priority.t) : Z :=
  match priority with
  | Priority.URGENT => sla_urgent_hours _settings
  | Priority.HIGH => sla_high_hours _settings
  | Priority.MEDIUM => sla_medium_hours _settings
  | Priority.LOW => sla_low_hours _settings
  end.

(** The first half of [route]: the suggested department, overridden by
    the category table, with the rules recorded so far. *)
Definition department_by_category (query_result : QueryResult)
  : Department.t * list string :=
  let department := department_suggestion query_result in
  let rules_applied := ["query_agent_suggestion"] in
  match CATEGORY_TO_DEPARTMENT (intent_category query_result) with
  | Some dept_from_category =>
      if bool_decide (dept_from_category <> department)
      then (dept_from_category,
            rules_applied ++ ["category_to_department_mapping"])
      else (department, rules_applied)
  | None => (department, rules_applied)
  end.

Definition route (query_result : QueryResult) (clarification_attempts : Z)
  : Outcome RoutingDecision :=
  let '(department, rules_applied) :=
    department_by_category query_result in
  let priority := _determine_priority query_result in
  let rules_applied :=
    rules_applied ++ ["priority_" +:+ str_lower (Priority.value priority)] in
  let '(escalate, reason) :=
    _check_escalation query_result clarification_attempts in
  let finish (department : Department.t) (rules_applied : list string) :=
    let sla_hours := _get_sla_hours priority in
    let rules_applied :=
      rules_applied ++ ["sla_" +:+ str_of_int sla_hours +:+ "h"] in
    RoutingDecision_new department priority escalate
      (if escalate then reason else None) sla_hours rules_applied in
  if escalate then
    match reason with
    | Some r =>
        finish Department.ESCALATE_TO_HUMAN
          (rules_applied ++ ["escalation_" +:+ EscalationReason.value r])
    | None => Raised (AttributeError "value")
    end
  else finish department rules_applied.

Definition needs_clarification
    (query_result : QueryResult) (clarification_attempts : Z) : bool :=
  if max_clarification_attempts _settings <=? clarification_attempts
  then false
  else if requires_escalation query_result then false
  else float_lt (confidence query_result) (confidence_threshold _settings).

End WithSettings.

End RouterAgent.


(** ** Effects: collaborator calls that may raise and that change the world *)

Definition Eff (W A : Type) : Type := W -> Outcome A * W.

Definition eff_ret {W A : Type} (a : A) : Eff W A := fun w => (Returned a, w).

Definition eff_raise {W A : Type} (e : Exn) : Eff W A := fun w => (Raised e, w).

Definition eff_bind {W A B : Type} (c : Eff W A) (k : A -> Eff W B) : Eff W B :=
  fun w =>
    match c w with
    | (Returned a, w') => k a w'
    | (Raised e, w') => (Raised e, w')
    end.

(** A pure computation that may raise, run inside [Eff]. *)
Definition eff_lift {W A : Type} (o : Outcome A) : Eff W A := fun w => (o, w).

Notation "'let*' x ':=' c 'in' k" := (eff_bind c (fun x => k))
  (at level 10, x pattern, c at level 100, k at level 200).

(** ** app/models/schemas.py, continued: the action result *)

(** One element of the [contents] list a knowledge search returns beside the
    articles: a dict, whose keys [content] and [snippet] may be missing. *)
Record ArticleContent : Type := {
  ac_article_id : string;
  ac_title : string;
  ac_content : option string;
  ac_snippet : option string;
  ac_tags : list string
}.

(** The pieces of the pattern [^TKT-[A-Z]{2,3}-\d{8}-\d{4}$] given to
    [re.match]. *)
Fixpoint eat_lit (lit s : string) : option string :=
  match lit, s with
  | EmptyString, _ => Some s
  | String a lit', String b s' => if Ascii.eqb a b then eat_lit lit' s' else None
  | String _ _, EmptyString => None
  end.

(** Exactly [n] characters of the class [cls]. *)
Fixpoint eat_class (cls : ascii -> bool) (n : nat) (s : string) : option string :=
  match n, s with
  | O, _ => Some s
  | S k, String c s' => if cls c then eat_class cls k s' else None
  | S _, EmptyString => None
  end.

(** [$]: the end of the string, or just before a final newline. *)
Definition at_end (s : string) : bool :=
  bool_decide (s = "") || bool_decide (s = newline).

(** [s] is made of exactly [n] digits. *)
Definition is_digits (n : nat) (s : string) : bool :=
  match eat_class is_digit n s with
  | Some EmptyString => true
  | _ => false
  end.

(** What follows [TKT-] when the department code takes [n] letters. *)
Definition ticket_id_rest (n : nat) (s : string) : bool :=
  match
    s1 ← eat_class is_upper n s;
    s2 ← eat_lit "-" s1;
    s3 ← eat_class is_digit 8 s2;
    s4 ← eat_lit "-" s3;
    eat_class is_digit 4 s4
  with
  | Some s5 => at_end s5
  | None => false
  end.

(** [re.match(pattern, v)]: the quantifier [{2,3}] is greedy, three letters
    are tried before two. *)
Definition ticket_id_matches (v : string) : bool :=
  match eat_lit "TKT-" v with
  | Some s => ticket_id_rest 3 s || ticket_id_rest 2 s
  | None => false
  end.

(** The field validator [validate_ticket_id] of [ActionResult] and of
    [ChatResponse]. *)
Definition validate_ticket_id (v : option string) : bool :=
  match v with
  | Some s => ticket_id_matches s
  | None => true
  end.

Record ActionResult : Type := {
  ticket_id : option string;
  ticket_url : option string;
  ar_department : Department.t;
  status : ActionStatus.t;
  knowledge_articles : list KnowledgeArticle;
  estimated_response_time : string;
  escalated : bool;
  user_message : string
}.

(** Construction of an [ActionResult]: the validator of [ticket_id] and the
    constraint [max_length=3] of [knowledge_articles]. *)
Definition ActionResult_new
    (ticket_id : option string) (ticket_url : option string)
    (department : Department.t) (status : ActionStatus.t)
    (knowledge_articles : list KnowledgeArticle)
    (estimated_response_time : string) (escalated : bool)
    (user_message : string) : Outcome ActionResult :=
  let failed :=
    (if validate_ticket_id ticket_id then [] else ["ticket_id"]) ++
    (if (length knowledge_articles <=? 3)%nat then []
     else ["knowledge_articles"]) in
  match failed with
  | [] => Returned {| ticket_id := ticket_id;
                      ticket_url := ticket_url;
                      ar_department := department;
                      status := status;
                      knowledge_articles := knowledge_articles;
                      estimated_response_time := estimated_response_time;
                      escalated := escalated;
                      user_message := user_message |}
  | _ => Raised (ValidationError failed)
  end.

(** The response of the ticket endpoints; [datetime] is the type of the
    standard library. *)
Record TicketStatusResponse (datetime : Type) : Type := {
  tsr_ticket_id : string;
  tsr_department : Department.t;
  tsr_status : TicketStatus.t;
  tsr_priority : option Priority.t;
  tsr_summary : option string;
  tsr_description : option string;
  tsr_created_at : datetime;
  tsr_updated_at : option datetime;
  tsr_assigned_to : option string;
  tsr_resolution_summary : option string
}.
Arguments tsr_ticket_id {datetime} _.
Arguments tsr_department {datetime} _.
Arguments tsr_status {datetime} _.
Arguments tsr_priority {datetime} _.
Arguments tsr_summary {datetime} _.
Arguments tsr_description {datetime} _.
Arguments tsr_created_at {datetime} _.
Arguments tsr_updated_at {datetime} _.
Arguments tsr_assigned_to {datetime} _.
Arguments tsr_resolution_summary {datetime} _.

Record ServiceHealth : Type := {
  sh_status : string;
  sh_latency_ms : option Z;
  sh_error : option string
}.

(** [services] is the dict of the response, in the order of insertion. *)
Record HealthStatus (datetime : Type) : Type := {
  hs_status : string;
  hs_timestamp : datetime;
  hs_services : list (string * ServiceHealth)
}.
Arguments hs_status {datetime} _.
Arguments hs_timestamp {datetime} _.
Arguments hs_services {datetime} _.

(** ** app/services/interfaces.py: the collaborators of the action agent *)

Class KnowledgeServiceInterface (W : Type) : Type := {
  search_with_content :
    string -> option Department.t -> Z ->
    Eff W (list KnowledgeArticle * list ArticleContent)
}.

Class TicketServiceInterface (W : Type) : Type := {
  create_ticket :
    Department.t -> Priority.t -> string -> string -> string ->
    list (string * EntityValue) -> Eff W (string * string)
}.

Class LLMServiceInterface (W : Type) : Type := {
  generate_response_message :
    string -> Department.t -> option string -> bool -> string -> string ->
    list KnowledgeArticle -> list ArticleContent -> Eff W string
}.

(** The method [health_check] that every service interface declares: whether
    the service is healthy, its latency and an error message. *)
Class HealthCheck (W : Type) : Type := {
  health_check : Eff W (bool * option Z * option string)
}.

(** ** Formatting of numbers *)

(** [s.rjust(n, "0")] *)
Definition zero_pad (n : nat) (s : string) : string :=
  string_of_list_ascii (repeat "0"%char (n - String.length s)) +:+ s.

(** [f"{n:04d}"]: at least four characters, the sign counted. *)
Definition format_04d (n : Z) : string :=
  if n <? 0 then "-" +:+ zero_pad 3 (str_of_int (- n))
  else zero_pad 4 (str_of_int n).

(** The number of hundredths nearest to [m * 2^e], ties to the even one: the
    correctly rounded conversion that [f"{x:.2f}"] does on the exact value
    of the float. *)
Definition nearest_hundredths (m : positive) (e : Z) : Z :=
  let num := 100 * Z.pos m in
  if 0 <=? e then num * 2 ^ e
  else
    let den := 2 ^ (- e) in
    let q := num / den in
    let r := num mod den in
    match 2 * r ?= den with
    | Lt => q
    | Gt => q + 1
    | Eq => if Z.even q then q else q + 1
    end.

(** [f"{x:.2f}"] *)
Definition format_2f (x : float) : string :=
  match Prim2SF x with
  | S754_nan => "nan"
  | S754_infinity s => if s then "-inf" else "inf"
  | S754_zero s => (if s then "-" else "") +:+ "0.00"
  | S754_finite s m e =>
      let h := nearest_hundredths m e in
      (if s then "-" else "") +:+ str_of_int (h / 100) +:+ "." +:+
      zero_pad 2 (str_of_int (h mod 100))
  end.

(** ** app/agents/action_agent.py *)

Module ActionAgent.

Definition SLA_DESCRIPTIONS : gmap Z string :=
  list_to_map
    [ (1, "within 1 hour"); (4, "within 4 hours");
      (24, "within 1 business day"); (48, "within 2 business days");
      (72, "within 3 business days") ].

Definition KB_SELF_SERVICE_THRESHOLD : float := 0.5%float.

Definition _should_create_ticket
    (routing_decision : RoutingDecision)
    (knowledge_articles : list KnowledgeArticle) : bool :=
  if escalate_to_human routing_decision then true
  else if bool_decide (priority routing_decision = Priority.HIGH)
          || bool_decide (priority routing_decision = Priority.URGENT)
  then true
  else
    match knowledge_articles with
    | top_article :: _ =>
        if float_ge (relevance_score top_article) KB_SELF_SERVICE_THRESHOLD
        then false
        else true
    | [] => true
    end.

Definition _generate_ticket_summary (query_result : QueryResult) : string :=
  let intent_display :=
    str_title (str_replace_char "_" " " (intent query_result)) in
  intent_display +:+ " request".

(** The lines of the description that are built from the query result
    alone, before the last line is appended. *)
Definition description_lines (query_result : QueryResult) : list string :=
  let lines :=
    [ "Intent: " +:+ intent query_result;
      "Category: " +:+ IntentCategory.value (intent_category query_result);
      "Confidence: " +:+ format_2f (confidence query_result);
      "Sentiment: " +:+ Sentiment.value (sentiment query_result) ] in
  let lines :=
    match entities query_result with
    | [] => lines
    | _ :: _ =>
        let entities_str :=
          str_join ", "
            (map (fun kv => fst kv +:+ ": " +:+ entity_str (snd kv))
                 (entities query_result)) in
        lines ++ ["Entities: " +:+ entities_str]
    end in
  match urgency_indicators query_result with
  | [] => lines
  | _ :: _ =>
      lines ++ ["Urgency: " +:+ str_join ", " (urgency_indicators query_result)]
  end.

Definition _generate_ticket_description
    (query_result : QueryResult) (original_message : string) : string :=
  let lines := description_lines query_result in
  let lines :=
    if pii_detected query_result
    then lines ++ ["Note: PII detected in original message (not included)"]
    else lines ++ ["User message: " +:+ str_take 500 original_message] in
  str_join newline lines.

Definition _format_sla (hours : Z) : string :=
  match SLA_DESCRIPTIONS !! hours with
  | Some d => d
  | None =>
      if hours <? 24 then "within " +:+ str_of_int hours +:+ " hours"
      else
        let days := hours / 24 in
        "within " +:+ str_of_int days +:+ " business day" +:+
        (if 1 <? days then "s" else "")
  end.

(** The department filter of the search: none for an escalated request. *)
Definition dept_filter (department : Department.t) : option Department.t :=
  if bool_decide (department = Department.ESCALATE_TO_HUMAN)
  then None else Some department.

(** The search string: the intent, then every entity value that is a
    string, in the order of the dict. *)
Definition search_query_of (query_result : QueryResult) : string :=
  let search_terms :=
    [str_replace_char "_" " " (intent query_result)] ++
    omap (fun kv => match snd kv with EStr s => Some s | EOther _ => None end)
         (entities query_result) in
  str_join " " search_terms.

Section WithServices.
Context {W : Type}.
Variable _tickets : TicketServiceInterface W.
Variable _knowledge : KnowledgeServiceInterface W.
Variable _llm : LLMServiceInterface W.

Definition _search_knowledge_with_content
    (query_result : QueryResult) (department : Department.t)
  : Eff W (list KnowledgeArticle * list ArticleContent) :=
  let search_query := search_query_of query_result in
  let dept_filter := dept_filter department in
  let* (articles, contents) :=
    search_with_content search_query dept_filter 3 in
  eff_ret (articles, contents).

Definition execute
    (query_result : QueryResult) (routing_decision : RoutingDecision)
    (student_id_hash : string) (original_message : string)
  : Eff W ActionResult :=
  let* (knowledge_articles, kb_article_contents) :=
    _search_knowledge_with_content query_result
      (department routing_decision) in
  let should_create_ticket :=
    _should_create_ticket routing_decision knowledge_articles in
  let* (ticket_id, ticket_url, status) :=
    (if should_create_ticket then
       let summary := _generate_ticket_summary query_result in
       let description :=
         _generate_ticket_description query_result original_message in
       let* (ticket_id, ticket_url) :=
         create_ticket (department routing_decision)
           (priority routing_decision) summary description student_id_hash
           (entities query_result) in
       eff_ret (Some ticket_id, Some ticket_url,
                if escalate_to_human routing_decision
                then ActionStatus.ESCALATED else ActionStatus.CREATED)
     else eff_ret (None, None, ActionStatus.KB_ONLY)) in
  let estimated_response_time :=
    _format_sla (suggested_sla_hours routing_decision) in
  let* user_message :=
    generate_response_message (intent query_result)
      (department routing_decision) ticket_id
      (escalate_to_human routing_decision) estimated_response_time
      original_message knowledge_articles kb_article_contents in
  eff_lift
    (ActionResult_new ticket_id ticket_url (department routing_decision)
       status knowledge_articles estimated_response_time
       (escalate_to_human routing_decision) user_message).

Definition create_clarification_response (clarification_question : string)
  : Eff W ActionResult :=
  eff_lift
    (ActionResult_new None None Department.IT
       ActionStatus.PENDING_CLARIFICATION [] "pending" false
       clarification_question).

End WithServices.

End ActionAgent.

(** ** app/services/mock/ticket_service.py *)

Module MockTicketService.

(** The UTC date the clock shows, and what [isoformat()] of the current time
    prints. *)
Record Date : Type := { year : Z; month : Z; day : Z }.

(** [strftime("%Y%m%d")]: the year on four digits, month and day on two. *)
Definition strftime_Ymd (d : Date) : string :=
  zero_pad 4 (str_of_int (year d)) +:+ zero_pad 2 (str_of_int (month d)) +:+
  zero_pad 2 (str_of_int (day d)).

(** A stored ticket: the dict [create_ticket] builds. *)
Record Ticket : Type := {
  t_ticket_id : string;
  t_department : string;
  t_status : string;
  t_priority : string;
  t_summary : string;
  t_description : string;
  t_created_at : string;
  t_updated_at : string;
  t_assigned_to : option string;
  t_student_id_hash : string;
  t_resolution_summary : option string;
  t_entities : list (string * EntityValue)
}.

(** The class-level storage of the service, with the clock it reads. The
    counters start from the sample tickets loaded by [__init__]. *)
Record Store : Type := {
  today : Date;
  now_isoformat : string;
  _tickets : gmap string Ticket;
  _ticket_counter : gmap string Z
}.

Definition dept_codes (d : Department.t) : option string :=
  match d with
  | Department.IT => Some "IT"
  | Department.HR => Some "HR"
  | Department.REGISTRAR => Some "REG"
  | Department.FINANCIAL_AID => Some "FIN"
  | Department.FACILITIES => Some "FAC"
  | Department.STUDENT_AFFAIRS => Some "STU"
  | Department.CAMPUS_SAFETY => Some "SAF"
  | Department.ESCALATE_TO_HUMAN => Some "ESC"
  end.

(** [dept_codes.get(department, "GEN")] *)
Definition dept_code (department : Department.t) : string :=
  default "GEN" (dept_codes department).

(** The key of the counter of a department on the day of the clock. *)
Definition counter_key (department : Department.t) (st : Store) : string :=
  dept_code department +:+ "-" +:+ strftime_Ymd (today st).

(** A date the clock can show: [datetime] stops at year 9999, and below
    year 1000 the width of [%Y] depends on the C library. *)
Definition calendar_date (d : Date) : Prop :=
  1000 <= year d <= 9999 /\ 1 <= month d <= 12 /\ 1 <= day d <= 31.

Definition _generate_ticket_id (department : Department.t) : Eff Store string :=
  fun st =>
    let today_str := strftime_Ymd (today st) in
    let dept_code := dept_code department in
    let key := counter_key department st in
    let seq := default 0 (_ticket_counter st !! key) + 1 in
    (Returned
       ("TKT-" +:+ dept_code +:+ "-" +:+ today_str +:+ "-" +:+ format_04d seq),
     {| today := today st;
        now_isoformat := now_isoformat st;
        _tickets := _tickets st;
        _ticket_counter := <[key := seq]> (_ticket_counter st) |}).

Definition store_ticket (id : string) (t : Ticket) : Eff Store unit :=
  fun st =>
    (Returned tt,
     {| today := today st;
        now_isoformat := now_isoformat st;
        _tickets := <[id := t]> (_tickets st);
        _ticket_counter := _ticket_counter st |}).

Definition read_now : Eff Store string :=
  fun st => (Returned (now_isoformat st), st).

Definition create_ticket
    (department : Department.t) (priority : Priority.t)
    (summary description student_id_hash : string)
    (entities : list (string * EntityValue)) : Eff Store (string * string) :=
  let* ticket_id := _generate_ticket_id department in
  let* now := read_now in
  let ticket :=
    {| t_ticket_id := ticket_id;
       t_department := Department.value department;
       t_status := "open";
       t_priority := Priority.value priority;
       t_summary := str_take 200 summary;
       t_description := description;
       t_created_at := now;
       t_updated_at := now;
       t_assigned_to := None;
       t_student_id_hash := student_id_hash;
       t_resolution_summary := None;
       t_entities := entities |} in
  let* _ := store_ticket ticket_id ticket in
  let ticket_url := "https://servicenow.university.edu/ticket/" +:+ ticket_id in
  eff_ret (ticket_id, ticket_url).

(** The administration methods. They read a stored ticket as the dict
    [create_ticket] builds, with all its keys. *)
Section WithDatetime.
(** [datetime] and [datetime.fromisoformat] of the standard library; [None]
    stands for its ValueError. *)
Variable datetime : Type.
Variable fromisoformat : string -> option datetime.

(** [datetime.fromisoformat(s.replace("Z", "+00:00"))] *)
Definition parse_timestamp (s : string) : Result datetime :=
  let s := str_replace_char_by "Z" "+00:00" s in
  match fromisoformat s with
  | Some t => Ok t
  | None => Err (ValueError s)
  end.

(** [Priority(ticket["priority"]) if ticket.get("priority") else None] *)
Definition priority_of (ticket : Ticket) : Result (option Priority.t) :=
  if bool_decide (t_priority ticket = "") then Ok None
  else
    let? p :=
      enum_of_value Priority.members Priority.value (t_priority ticket) in
    Ok (Some p).

Definition get_ticket_status (ticket_id : string) (st : Store)
  : Result (option (TicketStatusResponse datetime)) :=
  match _tickets st !! ticket_id with
  | None => Ok None
  | Some ticket =>
      let? department :=
        enum_of_value Department.members Department.value
          (t_department ticket) in
      let? status :=
        enum_of_value TicketStatus.members TicketStatus.value
          (t_status ticket) in
      let? priority := priority_of ticket in
      let? created_at := parse_timestamp (t_created_at ticket) in
      let? updated_at :=
        (if bool_decide (t_updated_at ticket = "") then Ok None
         else
           let? u := parse_timestamp (t_updated_at ticket) in
           Ok (Some u)) in
      Ok (Some {| tsr_ticket_id := t_ticket_id ticket;
                  tsr_department := department;
                  tsr_status := status;
                  tsr_priority := priority;
                  tsr_summary := Some (t_summary ticket);
                  tsr_description := Some (t_description ticket);
                  tsr_created_at := created_at;
                  tsr_updated_at := updated_at;
                  tsr_assigned_to := t_assigned_to ticket;
                  tsr_resolution_summary := t_resolution_summary ticket |})
  end.

(** The stored dict is changed in place before the response is built, so
    the store is updated even when building the response raises. *)
Definition update_ticket_status
    (ticket_id : string) (new_status : TicketStatus.t)
    (assigned_to resolution_summary : option string) (st : Store)
  : Result (option (TicketStatusResponse datetime)) * Store :=
  match _tickets st !! ticket_id with
  | None => (Ok None, st)
  | Some ticket =>
      let ticket :=
        {| t_ticket_id := t_ticket_id ticket;
           t_department := t_department ticket;
           t_status := TicketStatus.value new_status;
           t_priority := t_priority ticket;
           t_summary := t_summary ticket;
           t_description := t_description ticket;
           t_created_at := t_created_at ticket;
           t_updated_at := now_isoformat st;
           t_assigned_to :=
             match assigned_to with
             | Some a => Some a
             | None => t_assigned_to ticket
             end;
           t_student_id_hash := t_student_id_hash ticket;
           t_resolution_summary :=
             match resolution_summary with
             | Some r => Some r
             | None => t_resolution_summary ticket
             end;
           t_entities := t_entities ticket |} in
      let st :=
        {| today := today st;
           now_isoformat := now_isoformat st;
           _tickets := <[ticket_id := ticket]> (_tickets st);
           _ticket_counter := _ticket_counter st |} in
      (let? department :=
         enum_of_value Department.members Department.value
           (t_department ticket) in
       let? status :=
         enum_of_value TicketStatus.members TicketStatus.value
           (t_status ticket) in
       let? priority := priority_of ticket in
       let? created_at := parse_timestamp (t_created_at ticket) in
       let? updated_at := parse_timestamp (t_updated_at ticket) in
       Ok (Some {| tsr_ticket_id := t_ticket_id ticket;
                   tsr_department := department;
                   tsr_status := status;
                   tsr_priority := priority;
                   tsr_summary := Some (t_summary ticket);
                   tsr_description := Some (t_description ticket);
                   tsr_created_at := created_at;
                   tsr_updated_at := Some updated_at;
                   tsr_assigned_to := t_assigned_to ticket;
                   tsr_resolution_summary := t_resolution_summary ticket |}),
       st)
  end.

End WithDatetime.

Definition delete_ticket (ticket_id : string) : Eff Store bool :=
  fun st =>
    match _tickets st !! ticket_id with
    | Some _ =>
        (Returned true,
         {| today := today st;
            now_isoformat := now_isoformat st;
            _tickets := delete ticket_id (_tickets st);
            _ticket_counter := _ticket_counter st |})
    | None => (Returned false, st)
    end.

#[global] Instance health : HealthCheck Store :=
  Build_HealthCheck Store (eff_ret (true, Some 10, None)).

#[global] Instance service : TicketServiceInterface Store :=
  Build_TicketServiceInterface Store create_ticket.

End MockTicketService.

(** ** app/services/mock/llm_service.py: the response message *)

Module MockLLMService.

Definition dept_names (d : Department.t) : option string :=
  match d with
  | Department.IT => Some "IT Support"
  | Department.HR => Some "Human Resources"
  | Department.REGISTRAR => Some "the Registrar's Office"
  | Department.FINANCIAL_AID => Some "Financial Aid"
  | Department.FACILITIES => Some "Facilities Management"
  | Department.STUDENT_AFFAIRS => Some "Student Affairs"
  | Department.CAMPUS_SAFETY => Some "Campus Safety"
  | Department.ESCALATE_TO_HUMAN => Some "a human support specialist"
  end.

(** [f"{ticket_id}"] of an optional string. *)
Definition str_of_optional (o : option string) : string := default "None" o.

Definition response_message
    (intent : string) (department : Department.t) (ticket_id : option string)
    (escalated : bool) (estimated_response_time original_message : string)
    (knowledge_articles : list KnowledgeArticle)
    (kb_article_contents : list ArticleContent) : string :=
  let dept_name := default (Department.value department) (dept_names department) in
  let self_service_info :=
    match kb_article_contents with
    | top_article :: _ =>
        let content :=
          match ac_content top_article with
          | Some c => c
          | None => default "" (ac_snippet top_article)
          end in
        if bool_decide (content = "") then ""
        else newline +:+ newline +:+ "Here's how you can resolve this:" +:+
             newline +:+ content
    | [] => ""
    end in
  if escalated then
    "I've forwarded your request to " +:+ dept_name +:+
    " for personal attention. " +:+
    "A team member will reach out to you within " +:+
    estimated_response_time +:+ ". " +:+
    "Your reference number is " +:+ str_of_optional ticket_id +:+ "."
  else if negb (bool_decide (default "" ticket_id = "")) then
    let base_msg :=
      "I've created a support ticket (" +:+ str_of_optional ticket_id +:+
      ") and routed it to " +:+ dept_name +:+ ". " +:+
      "You can expect a response within " +:+ estimated_response_time +:+ "." in
    if negb (bool_decide (self_service_info = "")) then
      base_msg +:+ self_service_info +:+ newline +:+ newline +:+
      "Let me know if you need additional assistance."
    else base_msg +:+ " Is there anything else I can help you with?"
  else if negb (bool_decide (self_service_info = "")) then
    "I've found some helpful information from " +:+ dept_name +:+ "." +:+
    self_service_info +:+ newline +:+ newline +:+
    "Let me know if you need additional assistance."
  else
    "I've found some helpful information from " +:+ dept_name +:+ ". " +:+
    "Please review the articles below. " +:+
    "Let me know if you need additional assistance.".

Definition intent_descriptions : gmap string string :=
  list_to_map
    [ ("password_reset", "password reset for a university system");
      ("login_issues", "login problems with your account");
      ("financial_aid_inquiry", "financial aid or scholarships");
      ("tuition_payment", "tuition payments or billing");
      ("transcript_request", "requesting academic transcripts");
      ("enrollment_verification", "enrollment verification letters");
      ("facilities_issue", "facilities or maintenance issues");
      ("course_enrollment", "course registration");
      ("general_question", "general university information") ].

(** [intent_descriptions.get(intent, intent.replace("_", " "))] *)
Definition option_of (intent : string) : string :=
  default (str_replace_char "_" " " intent) (intent_descriptions !! intent).

Definition generate_clarification_question
    (message : string) (possible_intents : list string) : Result string :=
  let options := map option_of (take 3 possible_intents) in
  if bool_decide (length options = 1%nat) then
    let? o0 := item options 0 in
    Ok ("Just to clarify, are you asking about " +:+ o0 +:+ "?")
  else if bool_decide (length options = 2%nat) then
    let? o0 := item options 0 in
    let? o1 := item options 1 in
    Ok ("I want to make sure I understand. Are you asking about " +:+ o0 +:+
        " or " +:+ o1 +:+ "?")
  else
    let? o0 := item options 0 in
    let? o1 := item options 1 in
    let? o2 := item options 2 in
    Ok ("I want to help you with the right issue. Are you asking about " +:+
        o0 +:+ ", " +:+ o1 +:+ ", or " +:+ o2 +:+ "?").

#[global] Instance health (W : Type) : HealthCheck W :=
  Build_HealthCheck W (eff_ret (true, Some 5, None)).

#[global] Instance service (W : Type) : LLMServiceInterface W :=
  {| generate_response_message :=
       fun intent department ticket_id escalated time message articles contents =>
         eff_ret (response_message intent department ticket_id escalated time
                    message articles contents) |}.

End MockLLMService.

(** ** app/services/mock/knowledge_service.py and session_store.py: the
    health checks *)

Module MockKnowledgeService.
#[global] Instance health (W : Type) : HealthCheck W :=
  Build_HealthCheck W (eff_ret (true, Some 15, None)).
End MockKnowledgeService.

Module MockSessionStore.
#[global] Instance health (W : Type) : HealthCheck W :=
  Build_HealthCheck W (eff_ret (true, Some 2, None)).
End MockSessionStore.

(** ** app/api/routes.py: the health endpoint *)

Module routes.

Section WithServices.
Context {W datetime : Type}.
Variable llm_service ticket_service knowledge_service session_store
  : HealthCheck W.
(** [datetime.now(timezone.utc)] *)
Variable utcnow : Eff W datetime.

(** [ServiceHealth(status="up" if healthy else "down", latency_ms=...,
    error=...)] *)
Definition service_health (r : bool * option Z * option string)
  : ServiceHealth :=
  let '(healthy, latency, error) := r in
  {| sh_status := if healthy then "up" else "down";
     sh_latency_ms := latency;
     sh_error := error |}.

Definition health_check : Eff W (HealthStatus datetime) :=
  let services := [] in
  let* r := @health_check W llm_service in
  let services := services ++ [("llm", service_health r)] in
  let* r := @health_check W ticket_service in
  let services := services ++ [("ticketing", service_health r)] in
  let* r := @health_check W knowledge_service in
  let services := services ++ [("knowledge_base", service_health r)] in
  let* r := @health_check W session_store in
  let services := services ++ [("session_store", service_health r)] in
  let all_healthy :=
    forallb (fun s => bool_decide (sh_status (snd s) = "up")) services in
  let any_down :=
    existsb (fun s => bool_decide (sh_status (snd s) = "down")) services in
  let overall_status :=
    if all_healthy then "healthy"
    else if any_down then "unhealthy"
    else "degraded" in
  let* now := utcnow in
  eff_ret {| hs_status := overall_status;
             hs_timestamp := now;
             hs_services := services |}.

End WithServices.

End routes.

(** ** Test doubles, as the test-suite builds them with [AsyncMock] *)

(** A knowledge service whose search answers [reply] whatever is asked:
    [return_value] when [reply] is returned, [side_effect] when raised. *)
Definition KnowledgeMock (W : Type)
    (reply : Outcome (list KnowledgeArticle * list ArticleContent))
  : KnowledgeServiceInterface W :=
  {| search_with_content := fun _ _ _ => eff_lift reply |}.

(** A ticket service whose [create_ticket] answers [reply]. *)
Definition TicketMock (W : Type) (reply : Outcome (string * string))
  : TicketServiceInterface W :=
  {| create_ticket := fun _ _ _ _ _ _ => eff_lift reply |}.

(** ** Sample queries, from the scenarios of the test-suite *)

(** "I forgot my password" *)
Definition q_password_reset : QueryResult := {|
  intent := "password_reset";
  intent_category := IntentCategory.ACCOUNT_ACCESS;
  department_suggestion := Department.IT;
  entities := [];
  confidence := 0x1.d70a3d70a3d71p-1%float;        (* 0.92 *)
  requires_escalation := false;
  pii_detected := false;
  pii_types := [];
  sentiment := Sentiment.NEUTRAL;
  urgency_indicators := []
|}.

(** "I want to appeal my grade" *)
Definition q_grade_appeal : QueryResult := {|
  intent := "grade_appeal";
  intent_category := IntentCategory.POLICY_EXCEPTION;
  department_suggestion := Department.REGISTRAR;
  entities := [("course_code", EStr "CS101")];
  confidence := 0x1.c28f5c28f5c29p-1%float;        (* 0.88 *)
  requires_escalation := true;
  pii_detected := false;
  pii_types := [];
  sentiment := Sentiment.NEUTRAL;
  urgency_indicators := []
|}.

(** An unclear general question, classified with confidence 0.45. *)
Definition q_unclear : QueryResult := {|
  intent := "general_question";
  intent_category := IntentCategory.GENERAL_INQUIRY;
  department_suggestion := Department.IT;
  entities := [];
  confidence := 0x1.ccccccccccccdp-2%float;        (* 0.45 *)
  requires_escalation := false;
  pii_detected := false;
  pii_types := [];
  sentiment := Sentiment.NEUTRAL;
  urgency_indicators := []
|}.

(** A general question classified with confidence 0.92. *)
Definition q_general_confident : QueryResult := {|
  intent := "general_question";
  intent_category := IntentCategory.GENERAL_INQUIRY;
  department_suggestion := Department.IT;
  entities := [];
  confidence := 0x1.d70a3d70a3d71p-1%float;        (* 0.92 *)
  requires_escalation := false;
  pii_detected := false;
  pii_types := [];
  sentiment := Sentiment.NEUTRAL;
  urgency_indicators := []
|}.

Definition d_password_reset : RoutingDecision := {|
  department := Department.IT;
  priority := Priority.MEDIUM;
  escalate_to_human := false;
  escalation_reason := None;
  suggested_sla_hours := 24;
  routing_rules_applied :=
    ["query_agent_suggestion"; "priority_medium"; "sla_24h"]
|}.

Definition d_grade_appeal : RoutingDecision := {|
  department := Department.ESCALATE_TO_HUMAN;
  priority := Priority.URGENT;
  escalate_to_human := true;
  escalation_reason := Some EscalationReason.POLICY_KEYWORD_DETECTED;
  suggested_sla_hours := 1;
  routing_rules_applied :=
    ["query_agent_suggestion"; "category_to_department_mapping";
     "priority_urgent"; "escalation_policy_keyword_detected"; "sla_1h"]
|}.

Definition d_unclear_exhausted : RoutingDecision := {|
  department := Department.ESCALATE_TO_HUMAN;
  priority := Priority.LOW;
  escalate_to_human := true;
  escalation_reason := Some EscalationReason.MAX_CLARIFICATIONS_EXCEEDED;
  suggested_sla_hours := 72;
  routing_rules_applied :=
    ["query_agent_suggestion"; "priority_low";
     "escalation_max_clarifications_exceeded"; "sla_72h"]
|}.

Definition d_general_confident : RoutingDecision := {|
  department := Department.IT;
  priority := Priority.MEDIUM;
  escalate_to_human := false;
  escalation_reason := None;
  suggested_sla_hours := 24;
  routing_rules_applied :=
    ["query_agent_suggestion"; "priority_medium"; "sla_24h"]
|}.

(** ** Sample articles, decisions and stores *)

Definition article_scored (score : float) : KnowledgeArticle := {|
  article_id := "KB-001";
  title := "How to reset your password";
  url := "https://kb.university.edu/articles/KB-001";
  snippet := Some "Reset your password from the self-service portal.";
  relevance_score := score;
  ka_department := Some Department.IT
|}.

Definition article_half : KnowledgeArticle := article_scored 0.5%float.
Definition article_good : KnowledgeArticle :=
  article_scored 0x1.999999999999ap-1%float.                      (* 0.8 *)
Definition article_poor : KnowledgeArticle :=
  article_scored 0x1.3333333333333p-2%float.                      (* 0.3 *)

Definition content_reset : ArticleContent := {|
  ac_article_id := "KB-001";
  ac_title := "How to reset your password";
  ac_content := Some "Open the portal and choose Forgot password.";
  ac_snippet := Some "Reset your password from the self-service portal.";
  ac_tags := ["password"; "reset"]
|}.

(** A low-priority decision that does not escalate. *)
Definition d_low : RoutingDecision := {|
  department := Department.IT;
  priority := Priority.LOW;
  escalate_to_human := false;
  escalation_reason := None;
  suggested_sla_hours := 72;
  routing_rules_applied := ["query_agent_suggestion"; "priority_low"; "sla_72h"]
|}.

(** A query in whose message the classifier found a social security
    number. *)
Definition q_with_pii : QueryResult := {|
  intent := "financial_aid_inquiry";
  intent_category := IntentCategory.FINANCIAL;
  department_suggestion := Department.FINANCIAL_AID;
  entities := [("system", EStr "FAFSA"); ("amount", EOther "1200")];
  confidence := 0x1.c28f5c28f5c29p-1%float;        (* 0.88 *)
  requires_escalation := false;
  pii_detected := true;
  pii_types := ["ssn"];
  sentiment := Sentiment.FRUSTRATED;
  urgency_indicators := ["urgent"; "asap"]
|}.

(** The hash the chat endpoint uses: SHA-256 of [demo_student]. *)
Definition demo_student_hash : string :=
  "dc52f8b08ee024ef41618bfcd26d3e6c437c5177d24a779f46867d646264304b".

(** The ticket store on 20 January 2026, before any ticket. *)
Definition store_fresh : MockTicketService.Store := {|
  MockTicketService.today :=
    {| MockTicketService.year := 2026; MockTicketService.month := 1;
       MockTicketService.day := 20 |};
  MockTicketService.now_isoformat := "2026-01-20T09:30:00+00:00";
  MockTicketService._tickets := ∅;
  MockTicketService._ticket_counter := ∅
|}.

(** The same day, once 9999 IT tickets have been numbered. *)
Definition store_9999 : MockTicketService.Store := {|
  MockTicketService.today := MockTicketService.today store_fresh;
  MockTicketService.now_isoformat := "2026-01-20T23:59:00+00:00";
  MockTicketService._tickets := ∅;
  MockTicketService._ticket_counter := {[ "IT-20260120" := 9999 ]}
|}.

(** A password reset that the classifier sent to the wrong department. *)
Definition q_misdirected : QueryResult := {|
  intent := "password_reset";
  intent_category := IntentCategory.ACCOUNT_ACCESS;
  department_suggestion := Department.HR;
  entities := [];
  confidence := 0x1.d70a3d70a3d71p-1%float;        (* 0.92 *)
  requires_escalation := false;
  pii_detected := false;
  pii_types := [];
  sentiment := Sentiment.NEUTRAL;
  urgency_indicators := []
|}.

Definition d_misdirected : RoutingDecision := {|
  department := Department.IT;
  priority := Priority.MEDIUM;
  escalate_to_human := false;
  escalation_reason := None;
  suggested_sla_hours := 24;
  routing_rules_applied :=
    ["query_agent_suggestion"; "category_to_department_mapping";
     "priority_medium"; "sla_24h"]
|}.

(** A request for a human, classified with confidence 0.45. *)
Definition q_request_human_unsure : QueryResult := {|
  intent := "request_human";
  intent_category := IntentCategory.HUMAN_REQUEST;
  department_suggestion := Department.ESCALATE_TO_HUMAN;
  entities := [];
  confidence := 0x1.ccccccccccccdp-2%float;        (* 0.45 *)
  requires_escalation := false;
  pii_detected := false;
  pii_types := [];
  sentiment := Sentiment.NEUTRAL;
  urgency_indicators := []
|}.

Definition d_request_human_unsure : RoutingDecision := {|
  department := Department.ESCALATE_TO_HUMAN;
  priority := Priority.MEDIUM;
  escalate_to_human := true;
  escalation_reason := Some EscalationReason.USER_REQUESTED_HUMAN;
  suggested_sla_hours := 24;
  routing_rules_applied :=
    ["query_agent_suggestion"; "priority_medium";
     "escalation_user_requested_human"; "sla_24h"]
|}.

(** The decision for the query with PII. *)
Definition d_with_pii : RoutingDecision := {|
  department := Department.FINANCIAL_AID;
  priority := Priority.HIGH;
  escalate_to_human := false;
  escalation_reason := None;
  suggested_sla_hours := 4;
  routing_rules_applied :=
    ["query_agent_suggestion"; "priority_high"; "sla_4h"]
|}.

(** The store of 20 January 2026 after one IT ticket. *)
Definition store_one_ticket : MockTicketService.Store :=
  snd (MockTicketService.create_ticket Department.IT Priority.MEDIUM
         "Password Reset request" "Intent: password_reset" demo_student_hash
         [] store_fresh).

(** Failures of the collaborators. *)
Definition kb_unavailable : Exn := ServiceError "knowledge base unavailable".
Definition tickets_unavailable : Exn := ServiceError "ticket system unavailable".

(** ** Notions used to state and prove the properties *)





(** * Properties *)

(** ** Floats *)

Lemma SFcompare_Eq_not_Lt (f1 f2 : spec_float) :
  SFeqb f1 f2 = true -> SFltb f1 f2 = false.
Proof.
  unfold SFeqb, SFltb.
  destruct (SFcompare f1 f2) as [[ | | ] | ]; intros H;
    try reflexivity; discriminate H.
Qed.

Lemma SFltb_irrefl (f : spec_float) : SFltb f f = false.
Proof.
  unfold SFltb.
  destruct f as [s | s | | s m e]; simpl; try reflexivity.
  - destruct s; reflexivity.
  - generalize (Z.compare_refl e). intros ->.
    change (PosDef.Pos.compare_cont Eq m m) with (Pos.compare m m).
    generalize (Pos.compare_refl m). intros ->. destruct s; reflexivity.
Qed.

(** [x < x] is false for every float, the NaN included. *)
Lemma float_lt_irrefl (x : float) : float_lt x x = false.
Proof. unfold float_lt. rewrite FloatAxioms.ltb_spec. apply SFltb_irrefl. Qed.

(** [x == y] excludes [x < y]. *)
Lemma float_eqb_not_lt (x y : float) :
  (x =? y)%float = true -> float_lt x y = false.
Proof.
  unfold float_lt. rewrite FloatAxioms.eqb_spec, FloatAxioms.ltb_spec. apply SFcompare_Eq_not_Lt.
Qed.

(** ** The router *)

Section RouterProperties.
Variable s : Settings.

(** [_check_escalation] names a reason exactly when it escalates. *)
Lemma check_escalation_reason (q : QueryResult) (n : Z) :
  is_None (snd (RouterAgent._check_escalation s q n))
  = negb (fst (RouterAgent._check_escalation s q n)).
Proof.
  unfold RouterAgent._check_escalation.
  repeat match goal with
         | |- context [if ?b then _ else _] => destruct b
         end; reflexivity.
Qed.

(** What a returned decision holds, field by field. *)
Lemma route_returned (q : QueryResult) (n : Z) (d : RoutingDecision) :
  RouterAgent.route s q n = Returned d ->
  let esc := RouterAgent._check_escalation s q n in
  priority d = RouterAgent._determine_priority s q
  /\ escalate_to_human d = fst esc
  /\ escalation_reason d = (if fst esc then snd esc else None)
  /\ department d
     = (if fst esc then Department.ESCALATE_TO_HUMAN
        else fst (RouterAgent.department_by_category q))
  /\ suggested_sla_hours d
     = RouterAgent._get_sla_hours s (RouterAgent._determine_priority s q)
  /\ 0 < suggested_sla_hours d.
Proof.
  unfold RouterAgent.route.
  destruct (RouterAgent.department_by_category q) as [dep rules].
  destruct (RouterAgent._check_escalation s q n) as [esc reason].
  cbn [fst snd].
  destruct esc; [destruct reason as [r | ] | ];
    unfold RoutingDecision_new, require_reason_if_escalated; cbn [is_None andb negb app];
    try discriminate;
    destruct (0 <? _) eqn:Hsla; cbn [app]; intros H; inversion H; subst; clear H;
    cbn; repeat split; try reflexivity; apply Z.ltb_lt; exact Hsla.
Qed.

(** With positive SLA hours configured, [route] returns a decision for
    every query and every number of attempts. *)
Lemma route_returns (q : QueryResult) (n : Z) :
  0 < sla_urgent_hours s -> 0 < sla_high_hours s ->
  0 < sla_medium_hours s -> 0 < sla_low_hours s ->
  exists d, RouterAgent.route s q n = Returned d.
Proof.
  intros Hu Hh Hm Hl.
  assert (Hsla : forall p, (0 <? RouterAgent._get_sla_hours s p) = true).
  { intros p. apply Z.ltb_lt. destruct p; assumption. }
  pose proof (check_escalation_reason q n) as Hr.
  unfold RouterAgent.route.
  destruct (RouterAgent.department_by_category q) as [dep rules].
  destruct (RouterAgent._check_escalation s q n) as [esc reason].
  cbn [fst snd] in Hr.
  destruct esc; [destruct reason as [r | ]; [ | discriminate Hr] | ];
    unfold RoutingDecision_new, require_reason_if_escalated;
    cbn [is_None andb negb app]; rewrite Hsla; cbn [app]; eexists; reflexivity.
Qed.

End RouterProperties.

Example route_password_reset :
  RouterAgent.route default_settings q_password_reset 0
  = Returned d_password_reset.
Proof. vm_compute. reflexivity. Qed.

Example route_grade_appeal :
  RouterAgent.route default_settings q_grade_appeal 0 = Returned d_grade_appeal.
Proof. vm_compute. reflexivity. Qed.

Example route_unclear_exhausted :
  RouterAgent.route default_settings q_unclear 3 = Returned d_unclear_exhausted.
Proof. vm_compute. reflexivity. Qed.

Example route_general_confident :
  RouterAgent.route default_settings q_general_confident 0
  = Returned d_general_confident.
Proof. vm_compute. reflexivity. Qed.

(** A low-confidence query asks for clarification at attempts 0, 1 and 2,
    and no longer at 3. *)
Example needs_clarification_unclear :
  map (RouterAgent.needs_clarification default_settings q_unclear) [0; 1; 2; 3]
  = [true; true; true; false].
Proof. vm_compute. reflexivity. Qed.

(** Closes a disjunction of four equations by the one that holds. *)
Ltac one_of_four :=
  first [ left; reflexivity
        | right; left; reflexivity
        | right; right; left; reflexivity
        | right; right; right; reflexivity ].

(** ** Claims about the router *)

(** C1. Every decision [route] returns escalates if and only if it carries
    an escalation reason. *)
Theorem route_escalate_iff_reason
    (s : Settings) (q : QueryResult) (n : Z) (d : RoutingDecision) :
  RouterAgent.route s q n = Returned d ->
  (escalate_to_human d = true <-> escalation_reason d <> None).
Proof.
  intros H. destruct (route_returned s q n d H) as (_ & He & Hr & _).
  pose proof (check_escalation_reason s q n) as Hc.
  rewrite He, Hr.
  destruct (RouterAgent._check_escalation s q n) as [esc reason].
  cbn [fst snd] in *.
  destruct esc, reason; cbn in Hc; try discriminate Hc;
    split; intros; congruence.
Qed.

Lemma route_escalate_iff_reason_witness :
  (escalate_to_human d_grade_appeal = true
   <-> escalation_reason d_grade_appeal <> None)
  /\ (escalate_to_human d_password_reset = true
      <-> escalation_reason d_password_reset <> None).
Proof.
  split.
  - apply (route_escalate_iff_reason default_settings q_grade_appeal 0).
    vm_compute. reflexivity.
  - apply (route_escalate_iff_reason default_settings q_password_reset 0).
    vm_compute. reflexivity.
Defined.

(** The validator of the schema enforces one direction only: it refuses an
    escalation without a reason, and accepts a reason without escalation.
    The other direction is [route]'s doing. *)
Example routing_decision_validator :
  RoutingDecision_new Department.IT Priority.LOW true None 72 []
  = Raised (ValidationError ["escalation_reason"])
  /\ (exists d,
        RoutingDecision_new Department.IT Priority.LOW false
          (Some EscalationReason.SENSITIVE_TOPIC) 72 [] = Returned d)
  /\ RoutingDecision_new Department.IT Priority.LOW false None 0 []
     = Raised (ValidationError ["suggested_sla_hours"]).
Proof. split; [reflexivity | split; [eexists; reflexivity | reflexivity]]. Qed.

(** C7. A decision that escalates is always routed to the
    escalate-to-human department, whatever the classifier suggested and
    whatever the category table says. *)
Theorem route_escalated_department
    (s : Settings) (q : QueryResult) (n : Z) (d : RoutingDecision) :
  RouterAgent.route s q n = Returned d ->
  escalate_to_human d = true ->
  department d = Department.ESCALATE_TO_HUMAN.
Proof.
  intros H Hesc. destruct (route_returned s q n d H) as (_ & He & _ & Hd & _).
  rewrite Hd. rewrite He in Hesc. rewrite Hesc. reflexivity.
Qed.

Lemma route_escalated_department_witness :
  department_suggestion q_grade_appeal = Department.REGISTRAR
  /\ RouterAgent.CATEGORY_TO_DEPARTMENT (intent_category q_grade_appeal)
     = Some Department.STUDENT_AFFAIRS
  /\ department d_grade_appeal = Department.ESCALATE_TO_HUMAN.
Proof.
  split; [reflexivity | split; [reflexivity | ]].
  apply (route_escalated_department default_settings q_grade_appeal 0).
  - vm_compute. reflexivity.
  - reflexivity.
Defined.

(** C5. The priority of a returned decision is given by the first rule that
    matches, in this order: escalation flag, then frustrated or urgent
    sentiment, then urgency indicators, then confidence at or above the
    threshold, then the general-inquiry category, then the default.  A
    general inquiry whose confidence reaches the threshold is never low. *)
Theorem route_priority_first_match
    (s : Settings) (q : QueryResult) (n : Z) (d : RoutingDecision) :
  RouterAgent.route s q n = Returned d ->
  (requires_escalation q = true -> priority d = Priority.URGENT)
  /\ (requires_escalation q = false ->
      (sentiment q = Sentiment.FRUSTRATED \/ sentiment q = Sentiment.URGENT ->
       priority d = Priority.HIGH)
      /\ (sentiment q <> Sentiment.FRUSTRATED ->
          sentiment q <> Sentiment.URGENT ->
          (urgency_indicators q <> [] -> priority d = Priority.HIGH)
          /\ (urgency_indicators q = [] ->
              (float_ge (confidence q) (confidence_threshold s) = true ->
               priority d = Priority.MEDIUM)
              /\ (float_ge (confidence q) (confidence_threshold s) = false ->
                  (intent_category q = IntentCategory.GENERAL_INQUIRY ->
                   priority d = Priority.LOW)
                  /\ (intent_category q <> IntentCategory.GENERAL_INQUIRY ->
                      priority d = Priority.MEDIUM)))))
  /\ (intent_category q = IntentCategory.GENERAL_INQUIRY ->
      float_ge (confidence q) (confidence_threshold s) = true ->
      priority d <> Priority.LOW).
Proof.
  intros H. destruct (route_returned s q n d H) as (Hp & _).
  rewrite Hp. unfold RouterAgent._determine_priority.
  destruct (requires_escalation q);
    repeat case_bool_decide; cbn [negb];
    destruct (float_ge (confidence q) (confidence_threshold s));
    repeat split; intros; try reflexivity; try congruence;
    try discriminate; intuition congruence.
Qed.

Lemma route_priority_first_match_witness :
  priority d_general_confident = Priority.MEDIUM
  /\ priority d_unclear_exhausted = Priority.LOW
  /\ priority d_grade_appeal = Priority.URGENT.
Proof.
  assert (H1 : RouterAgent.route default_settings q_general_confident 0
               = Returned d_general_confident) by (vm_compute; reflexivity).
  assert (H2 : RouterAgent.route default_settings q_unclear 3
               = Returned d_unclear_exhausted) by (vm_compute; reflexivity).
  assert (H3 : RouterAgent.route default_settings q_grade_appeal 0
               = Returned d_grade_appeal) by (vm_compute; reflexivity).
  destruct (route_priority_first_match _ _ _ _ H1) as (_ & C1 & _).
  destruct (route_priority_first_match _ _ _ _ H2) as (_ & C2 & _).
  destruct (route_priority_first_match _ _ _ _ H3) as (C3 & _).
  split; [ | split].
  - destruct (C1 eq_refl) as (_ & S1).
    destruct S1 as (_ & U1); [discriminate | discriminate | ].
    destruct (U1 eq_refl) as (M1 & _).
    apply M1. vm_compute. reflexivity.
  - destruct (C2 eq_refl) as (_ & S2).
    destruct S2 as (_ & U2); [discriminate | discriminate | ].
    destruct (U2 eq_refl) as (_ & L2).
    destruct L2 as (G2 & _); [vm_compute; reflexivity | ].
    apply G2. reflexivity.
  - apply C3. reflexivity.
Defined.

(** C6. Clarification is requested exactly when the attempts are below the
    maximum, the query is not flagged for escalation and the confidence is
    strictly below the threshold; a confidence equal to the threshold is
    sufficient. *)
Theorem needs_clarification_iff (s : Settings) (q : QueryResult) (n : Z) :
  (RouterAgent.needs_clarification s q n = true
   <-> n < max_clarification_attempts s
       /\ requires_escalation q = false
       /\ float_lt (confidence q) (confidence_threshold s) = true)
  /\ (confidence q = confidence_threshold s ->
      RouterAgent.needs_clarification s q n = false)
  /\ ((confidence q =? confidence_threshold s)%float = true ->
      RouterAgent.needs_clarification s q n = false).
Proof.
  unfold RouterAgent.needs_clarification.
  destruct (Z.leb_spec (max_clarification_attempts s) n) as [Hge | Hlt].
  - split; [split | split].
    + intros H. discriminate H.
    + intros (H1 & _). lia.
    + reflexivity.
    + reflexivity.
  - destruct (requires_escalation q).
    + split; [split | split].
      * intros H. discriminate H.
      * intros (_ & H2 & _). discriminate H2.
      * reflexivity.
      * reflexivity.
    + split; [split | split].
      * intros H. split; [exact Hlt | split; [reflexivity | exact H]].
      * intros (_ & _ & H3). exact H3.
      * intros H. rewrite H. apply float_lt_irrefl.
      * intros H. apply float_eqb_not_lt. exact H.
Qed.

Lemma needs_clarification_iff_witness :
  RouterAgent.needs_clarification default_settings q_unclear 2 = true
  /\ RouterAgent.needs_clarification default_settings
       {| intent := "general_question";
          intent_category := IntentCategory.GENERAL_INQUIRY;
          department_suggestion := Department.IT;
          entities := [];
          confidence := confidence_threshold default_settings;
          requires_escalation := false;
          pii_detected := false;
          pii_types := [];
          sentiment := Sentiment.NEUTRAL;
          urgency_indicators := [] |} 0 = false.
Proof.
  split.
  - destruct (needs_clarification_iff default_settings q_unclear 2)
      as ((_ & Hback) & _).
    apply Hback.
    split; [reflexivity | split; [reflexivity | vm_compute; reflexivity]].
  - match goal with
    | |- RouterAgent.needs_clarification ?s ?q ?n = false =>
        destruct (needs_clarification_iff s q n) as (_ & Heq & _)
    end.
    apply Heq. reflexivity.
Defined.

(** C10. When [route] escalates, the reason is one of
    user_requested_human, policy_keyword_detected, sensitive_topic and
    max_clarifications_exceeded, hence never confidence_too_low nor
    multi_department; without the escalation flag and outside the escalation
    intents, the only reason is max_clarifications_exceeded, at low
    confidence once the attempts are used up. *)
Theorem route_escalation_reasons
    (s : Settings) (q : QueryResult) (n : Z) (d : RoutingDecision) :
  RouterAgent.route s q n = Returned d ->
  escalate_to_human d = true ->
  (escalation_reason d = Some EscalationReason.USER_REQUESTED_HUMAN
   \/ escalation_reason d = Some EscalationReason.POLICY_KEYWORD_DETECTED
   \/ escalation_reason d = Some EscalationReason.SENSITIVE_TOPIC
   \/ escalation_reason d = Some EscalationReason.MAX_CLARIFICATIONS_EXCEEDED)
  /\ escalation_reason d <> Some EscalationReason.CONFIDENCE_TOO_LOW
  /\ escalation_reason d <> Some EscalationReason.MULTI_DEPARTMENT
  /\ (requires_escalation q = false ->
      intent q ∉ RouterAgent.ESCALATION_INTENTS ->
      escalation_reason d = Some EscalationReason.MAX_CLARIFICATIONS_EXCEEDED
      /\ float_lt (confidence q) (confidence_threshold s) = true
      /\ max_clarification_attempts s <= n).
Proof.
  intros H Hesc. destruct (route_returned s q n d H) as (_ & He & Hr & _).
  rewrite He in Hesc. rewrite Hr, Hesc. clear H He Hr. revert Hesc.
  unfold RouterAgent._check_escalation.
  destruct (requires_escalation q).
  - destruct (bool_decide
                (intent_category q = IntentCategory.HUMAN_REQUEST));
      [ | destruct (bool_decide
                      (intent_category q = IntentCategory.POLICY_EXCEPTION))];
      cbn [fst snd]; intros _;
      (split; [one_of_four | ]);
      (split; [discriminate | split; [discriminate | ]]);
      intros Hflag; discriminate Hflag.
  - destruct (bool_decide (intent q ∈ RouterAgent.ESCALATION_INTENTS))
      eqn:Hin.
    + destruct (bool_decide (intent q = "request_human")
                || bool_decide (intent q = "speak_to_person"));
        cbn [fst snd]; intros _;
        (split; [one_of_four | ]);
        (split; [discriminate | split; [discriminate | ]]);
        intros _ Hnot; apply bool_decide_eq_true in Hin; contradiction.
    + destruct (float_lt (confidence q) (confidence_threshold s));
        [destruct (Z.leb_spec (max_clarification_attempts s) n) | ];
        cbn [fst snd]; intros Hesc; try discriminate Hesc.
      split; [one_of_four | ].
      split; [discriminate | split; [discriminate | ]].
      intros _ _. split; [reflexivity | split; [reflexivity | assumption]].
Qed.

Lemma route_escalation_reasons_witness :
  escalation_reason d_unclear_exhausted
  = Some EscalationReason.MAX_CLARIFICATIONS_EXCEEDED
  /\ float_lt (confidence q_unclear) (confidence_threshold default_settings)
     = true
  /\ max_clarification_attempts default_settings <= 3.
Proof.
  assert (H : RouterAgent.route default_settings q_unclear 3
              = Returned d_unclear_exhausted) by (vm_compute; reflexivity).
  destruct (route_escalation_reasons _ _ _ _ H eq_refl) as (_ & _ & _ & L).
  apply L; [reflexivity | ].
  apply (bool_decide_eq_false_1 _). vm_compute. reflexivity.
Defined.

(** Each of the four reasons is produced by some query. *)
Example route_reason_user_requested :
  exists d,
    RouterAgent.route default_settings
      {| intent := "request_human";
         intent_category := IntentCategory.HUMAN_REQUEST;
         department_suggestion := Department.ESCALATE_TO_HUMAN;
         entities := [];
         confidence := 0x1.d70a3d70a3d71p-1%float;
         requires_escalation := false;
         pii_detected := false;
         pii_types := [];
         sentiment := Sentiment.NEUTRAL;
         urgency_indicators := [] |} 0 = Returned d
    /\ escalation_reason d = Some EscalationReason.USER_REQUESTED_HUMAN.
Proof. eexists. split; vm_compute; reflexivity. Qed.

Example route_reason_sensitive_topic :
  exists d,
    RouterAgent.route default_settings
      {| intent := "report_harassment";
         intent_category := IntentCategory.STUDENT_SERVICES;
         department_suggestion := Department.STUDENT_AFFAIRS;
         entities := [];
         confidence := 0x1.d70a3d70a3d71p-1%float;
         requires_escalation := true;
         pii_detected := false;
         pii_types := [];
         sentiment := Sentiment.URGENT;
         urgency_indicators := [] |} 0 = Returned d
    /\ escalation_reason d = Some EscalationReason.SENSITIVE_TOPIC.
Proof. eexists. split; vm_compute; reflexivity. Qed.

(** ** Strings *)

Lemma str_take_length (n : nat) (s : string) :
  (String.length (str_take n s) <= n)%nat.
Proof.
  revert s. induction n as [ | n IH]; intros s.
  - destruct s; simpl; lia.
  - destruct s as [ | c s]; simpl; [lia | ]. specialize (IH s). lia.
Qed.

Lemma str_take_prefix (n : nat) (s : string) :
  String.prefix (str_take n s) s = true.
Proof.
  revert s. induction n as [ | n IH]; intros s.
  - destruct s; reflexivity.
  - destruct s as [ | c s]; simpl; [reflexivity | ].
    destruct (ascii_dec c c) as [_ | Hne]; [apply IH | contradiction].
Qed.

(** ** Claims about the ticket decision and the ticket description *)

(** C4. A ticket is created whenever the decision escalates, and whenever
    its priority is high or urgent, whatever the articles; otherwise no
    ticket is created exactly when there is a first article whose relevance
    is at least 0.5.  A single article scoring exactly 0.5, at low priority
    and without escalation, needs no ticket. *)
Theorem should_create_ticket_spec
    (rd : RoutingDecision) (articles : list KnowledgeArticle) :
  (escalate_to_human rd = true ->
   ActionAgent._should_create_ticket rd articles = true)
  /\ (priority rd = Priority.HIGH \/ priority rd = Priority.URGENT ->
      ActionAgent._should_create_ticket rd articles = true)
  /\ (escalate_to_human rd = false ->
      priority rd <> Priority.HIGH -> priority rd <> Priority.URGENT ->
      (ActionAgent._should_create_ticket rd articles = false
       <-> exists top rest,
             articles = top :: rest
             /\ float_ge (relevance_score top)
                  ActionAgent.KB_SELF_SERVICE_THRESHOLD = true))
  /\ (escalate_to_human rd = false -> priority rd = Priority.LOW ->
      forall a, relevance_score a = 0.5%float ->
        ActionAgent._should_create_ticket rd [a] = false).
Proof.
  unfold ActionAgent._should_create_ticket.
  split; [ | split; [ | split]].
  - intros ->. reflexivity.
  - intros [H | H]; rewrite H; destruct (escalate_to_human rd); reflexivity.
  - intros -> Hh Hu.
    rewrite (bool_decide_eq_false_2 _ Hh), (bool_decide_eq_false_2 _ Hu).
    cbn [orb]. destruct articles as [ | top rest].
    + split; [discriminate | intros (t & r & Heq & _); discriminate Heq].
    + destruct (float_ge (relevance_score top)
                  ActionAgent.KB_SELF_SERVICE_THRESHOLD) eqn:Hge.
      * split; [intros _; exists top, rest; split; [reflexivity | exact Hge]
               | reflexivity].
      * split; [discriminate | ].
        intros (t & r & Heq & Ht). inversion Heq; subst.
        rewrite Hge in Ht. discriminate Ht.
  - intros -> -> a Ha. cbn. rewrite Ha. reflexivity.
Qed.

Lemma should_create_ticket_spec_witness :
  ActionAgent._should_create_ticket d_low [article_half] = false
  /\ ActionAgent._should_create_ticket d_low [article_poor; article_good] = true
  /\ ActionAgent._should_create_ticket d_grade_appeal [article_good] = true.
Proof.
  destruct (should_create_ticket_spec d_low [article_half])
    as (_ & _ & _ & Hhalf).
  destruct (should_create_ticket_spec d_grade_appeal [article_good])
    as (Hesc & _).
  split; [ | split].
  - apply Hhalf; reflexivity.
  - reflexivity.
  - apply Hesc. reflexivity.
Defined.

(** The scenario of the specification: a good article at low priority gives
    self-service, a poor one a ticket. *)
Example should_create_ticket_scenarios :
  ActionAgent._should_create_ticket d_low [article_good] = false
  /\ ActionAgent._should_create_ticket d_low [article_poor] = true
  /\ ActionAgent._should_create_ticket d_low [] = true.
Proof. repeat split. Qed.

(** C8. With PII detected the description does not depend on the message at
    all: it is the structured lines followed by a note.  Without PII it is
    the structured lines followed by the first 500 characters of the
    message, so it depends on the message through those characters only. *)
Theorem ticket_description_pii_safe (q : QueryResult) :
  (pii_detected q = true ->
   forall m1 m2,
     ActionAgent._generate_ticket_description q m1
     = ActionAgent._generate_ticket_description q m2)
  /\ (pii_detected q = true ->
      forall m,
        ActionAgent._generate_ticket_description q m
        = str_join newline
            (ActionAgent.description_lines q
             ++ ["Note: PII detected in original message (not included)"]))
  /\ (pii_detected q = false ->
      forall m,
        ActionAgent._generate_ticket_description q m
        = str_join newline
            (ActionAgent.description_lines q
             ++ ["User message: " +:+ str_take 500 m])
        /\ (String.length (str_take 500 m) <= 500)%nat
        /\ String.prefix (str_take 500 m) m = true)
  /\ (pii_detected q = false ->
      forall m1 m2,
        str_take 500 m1 = str_take 500 m2 ->
        ActionAgent._generate_ticket_description q m1
        = ActionAgent._generate_ticket_description q m2).
Proof.
  unfold ActionAgent._generate_ticket_description.
  split; [ | split; [ | split]].
  - intros Hpii m1 m2. rewrite Hpii. reflexivity.
  - intros Hpii m. rewrite Hpii. reflexivity.
  - intros Hpii m. rewrite Hpii. split; [reflexivity | split].
    + apply str_take_length.
    + apply str_take_prefix.
  - intros Hpii m1 m2 Hsame. rewrite Hpii, Hsame. reflexivity.
Qed.

Lemma ticket_description_pii_safe_witness :
  ActionAgent._generate_ticket_description q_with_pii
    "My SSN is 123-45-6789, where is my aid?"
  = ActionAgent._generate_ticket_description q_with_pii "anything else".
Proof.
  destruct (ticket_description_pii_safe q_with_pii) as (Hsame & _).
  apply Hsame. reflexivity.
Defined.

(** The two descriptions as they are written. *)
Example ticket_description_with_pii :
  ActionAgent._generate_ticket_description q_with_pii
    "My SSN is 123-45-6789, where is my aid?"
  = str_join newline
      [ "Intent: financial_aid_inquiry"; "Category: FINANCIAL";
        "Confidence: 0.88"; "Sentiment: FRUSTRATED";
        "Entities: system: FAFSA, amount: 1200"; "Urgency: urgent, asap";
        "Note: PII detected in original message (not included)" ].
Proof. vm_compute. reflexivity. Qed.

Example ticket_description_without_pii :
  ActionAgent._generate_ticket_description q_password_reset
    "I forgot my password"
  = str_join newline
      [ "Intent: password_reset"; "Category: ACCOUNT_ACCESS";
        "Confidence: 0.92"; "Sentiment: NEUTRAL";
        "User message: I forgot my password" ].
Proof. vm_compute. reflexivity. Qed.

(** ** The action agent and its collaborators *)

Section ExecuteProperties.
Context {W : Type}.
Variable T : TicketServiceInterface W.
Variable K : KnowledgeServiceInterface W.
Variable L : LLMServiceInterface W.

(** A status that [execute] returns is created, escalated or kb_only, and a
    ticket id is reported exactly when a ticket was created. *)
Lemma execute_returned_status
    (q : QueryResult) (rd : RoutingDecision) (h m : string) (w w' : W)
    (r : ActionResult) :
  ActionAgent.execute T K L q rd h m w = (Returned r, w') ->
  (status r = ActionStatus.KB_ONLY /\ ticket_id r = None)
  \/ (status r = ActionStatus.CREATED /\ escalate_to_human rd = false
      /\ exists id, ticket_id r = Some id)
  \/ (status r = ActionStatus.ESCALATED /\ escalate_to_human rd = true
      /\ exists id, ticket_id r = Some id).
Proof.
  unfold ActionAgent.execute, ActionAgent._search_knowledge_with_content,
    eff_bind, eff_ret, eff_lift.
  destruct (search_with_content _ _ _ w) as [[[arts conts] | e] w1];
    [ | discriminate].
  destruct (ActionAgent._should_create_ticket rd arts).
  - destruct (create_ticket _ _ _ _ _ _ w1) as [[[tid turl] | e] w2];
      [ | discriminate].
    destruct (generate_response_message _ _ _ _ _ _ _ _ w2)
      as [[msg | e] w3]; [ | discriminate].
    unfold ActionResult_new.
    destruct (validate_ticket_id (Some tid));
      destruct (length arts <=? 3)%nat; cbn [app]; try discriminate.
    intros H. inversion H; subst; clear H. cbn.
    destruct (escalate_to_human rd); [right; right | right; left];
      (split; [reflexivity | split; [reflexivity | eexists; reflexivity]]).
  - destruct (generate_response_message _ _ _ _ _ _ _ _ w1)
      as [[msg | e] w3]; [ | discriminate].
    unfold ActionResult_new. cbn [validate_ticket_id app].
    destruct (length arts <=? 3)%nat; cbn [app]; try discriminate.
    intros H. inversion H; subst; clear H. left. split; reflexivity.
Qed.

(** [execute] never reports the status error. *)
Lemma execute_never_error
    (q : QueryResult) (rd : RoutingDecision) (h m : string) (w w' : W)
    (r : ActionResult) :
  ActionAgent.execute T K L q rd h m w = (Returned r, w') ->
  status r <> ActionStatus.ERROR.
Proof.
  intros H.
  destruct (execute_returned_status q rd h m w w' r H)
    as [[Hs _] | [[Hs _] | [Hs _]]]; rewrite Hs; discriminate.
Qed.

(** C3, as the code has it. When the knowledge search raises, [execute]
    raises the same error and leaves the world as the failed search left
    it: no outcome is produced, no ticket is created and no message is
    generated. *)
Theorem execute_kb_failure_propagates
    (q : QueryResult) (rd : RoutingDecision) (h m : string) (w w' : W)
    (e : Exn) :
  search_with_content (ActionAgent.search_query_of q)
    (ActionAgent.dept_filter (department rd)) 3 w
  = (Raised e, w') ->
  ActionAgent.execute T K L q rd h m w = (Raised e, w').
Proof.
  intros H.
  unfold ActionAgent.execute, ActionAgent._search_knowledge_with_content,
    eff_bind.
  rewrite H. reflexivity.
Qed.

(** C2, as the code has it. When [create_ticket] raises, [execute] raises
    the same error and leaves the world as the failed call left it: there
    is no outcome, hence no ticket id and no status, and no message is
    generated. *)
Theorem execute_ticket_failure_propagates
    (q : QueryResult) (rd : RoutingDecision) (h m : string) (w w1 w2 : W)
    (articles : list KnowledgeArticle) (contents : list ArticleContent)
    (e : Exn) :
  search_with_content (ActionAgent.search_query_of q)
    (ActionAgent.dept_filter (department rd)) 3 w
  = (Returned (articles, contents), w1) ->
  ActionAgent._should_create_ticket rd articles = true ->
  create_ticket (department rd) (priority rd)
    (ActionAgent._generate_ticket_summary q)
    (ActionAgent._generate_ticket_description q m) h (entities q) w1
  = (Raised e, w2) ->
  ActionAgent.execute T K L q rd h m w = (Raised e, w2).
Proof.
  intros Hs Hc Ht.
  unfold ActionAgent.execute, ActionAgent._search_knowledge_with_content,
    eff_bind, eff_ret.
  rewrite Hs, Hc, Ht. reflexivity.
Qed.

(** When the search finds nothing, the turn goes on to the ticket decision,
    which asks for a ticket unless the decision says otherwise. *)
Lemma execute_empty_search_creates_ticket
    (q : QueryResult) (rd : RoutingDecision) (h m : string) (w w1 : W) :
  search_with_content (ActionAgent.search_query_of q)
    (ActionAgent.dept_filter (department rd)) 3 w
  = (Returned ([], []), w1) ->
  ActionAgent._should_create_ticket rd [] = true.
Proof.
  intros _. unfold ActionAgent._should_create_ticket.
  destruct (escalate_to_human rd); [reflexivity | ].
  destruct (_ || _); reflexivity.
Qed.

End ExecuteProperties.

Lemma execute_kb_failure_propagates_witness :
  ActionAgent.execute MockTicketService.service
    (KnowledgeMock _ (Raised kb_unavailable)) (MockLLMService.service _)
    q_grade_appeal d_grade_appeal demo_student_hash
    "I want to appeal my grade" store_fresh
  = (Raised kb_unavailable, store_fresh).
Proof.
  apply (execute_kb_failure_propagates MockTicketService.service
           (KnowledgeMock _ (Raised kb_unavailable))
           (MockLLMService.service _)).
  reflexivity.
Defined.

Lemma execute_ticket_failure_propagates_witness :
  ActionAgent.execute (TicketMock _ (Raised tickets_unavailable))
    (KnowledgeMock _ (Returned ([article_good], [content_reset])))
    (MockLLMService.service _)
    q_grade_appeal d_grade_appeal demo_student_hash
    "I want to appeal my grade" tt
  = (Raised tickets_unavailable, tt).
Proof.
  apply (execute_ticket_failure_propagates
           (TicketMock _ (Raised tickets_unavailable))
           (KnowledgeMock _ (Returned ([article_good], [content_reset])))
           (MockLLMService.service _)
           q_grade_appeal d_grade_appeal demo_student_hash
           "I want to appeal my grade" tt tt tt
           [article_good] [content_reset]).
  - reflexivity.
  - reflexivity.
  - reflexivity.
Defined.

(** C2, as stated, fails: with a ticket system that raises, the turn of
    "I forgot my password" ends in the raised error; there is no outcome
    whose status is error and whose ticket id is null. *)
Lemma execute_ticket_failure_counterexample :
  let run :=
    ActionAgent.execute (TicketMock unit (Raised tickets_unavailable))
      (KnowledgeMock unit (Returned ([], []))) (MockLLMService.service unit)
      q_password_reset d_password_reset demo_student_hash
      "I forgot my password" tt in
  fst run = Raised tickets_unavailable
  /\ ~ (exists r, fst run = Returned r
                  /\ status r = ActionStatus.ERROR /\ ticket_id r = None).
Proof.
  cbv zeta. split.
  - vm_compute. reflexivity.
  - intros (r & Hr & _). vm_compute in Hr. discriminate Hr.
Qed.

(** C3, as stated, fails: with a knowledge base that raises the turn ends
    in the raised error, whereas with an empty search result it ends in a
    created ticket. *)
Lemma execute_kb_failure_counterexample :
  let run (reply : Outcome (list KnowledgeArticle * list ArticleContent)) :=
    fst (ActionAgent.execute MockTicketService.service
           (KnowledgeMock _ reply) (MockLLMService.service _)
           q_password_reset d_password_reset demo_student_hash
           "I forgot my password" store_fresh) in
  run (Raised kb_unavailable) = Raised kb_unavailable
  /\ (exists r, run (Returned ([], [])) = Returned r
                /\ status r = ActionStatus.CREATED
                /\ ticket_id r = Some "TKT-IT-20260120-0001")
  /\ run (Raised kb_unavailable) <> run (Returned ([], [])).
Proof.
  cbv zeta. split; [ | split].
  - vm_compute. reflexivity.
  - eexists. split; [vm_compute; reflexivity | split; reflexivity].
  - vm_compute. discriminate.
Qed.

(** ** Ticket ids *)

(** The ids the test-suite lists as valid and as invalid. *)
Example ticket_id_matches_tests :
  map ticket_id_matches
    [ "TKT-IT-20260121-0001"; "TKT-HR-20260115-0042";
      "TKT-FAC-20260101-9999"; "TKT-ESC-20260130-0123" ]
  = [true; true; true; true]
  /\ map ticket_id_matches
       [ "TKT-IT-2026011-0001"; "TKT-IT-20260121-01";
         "TICKET-IT-20260121-0001"; "TKT-20260121-0001"; "TKT-IT-20260121" ]
     = [false; false; false; false; false].
Proof. split; vm_compute; reflexivity. Qed.

Lemma eat_class_app (cls : ascii -> bool) (n : nat) (s r : string) :
  eat_class cls n s = Some "" -> eat_class cls n (s +:+ r) = Some r.
Proof.
  revert s. induction n as [ | n IH]; intros s; simpl.
  - intros H. injection H as ->. reflexivity.
  - destruct s as [ | c s]; [discriminate | ]. simpl.
    destruct (cls c); [apply IH | discriminate].
Qed.

Lemma eat_class_add (cls : ascii -> bool) (n m : nat) (s r : string) :
  eat_class cls n s = Some r ->
  eat_class cls (n + m) s = eat_class cls m r.
Proof.
  revert s. induction n as [ | n IH]; intros s; simpl.
  - intros H. injection H as ->. reflexivity.
  - destruct s as [ | c s]; [discriminate | ].
    destruct (cls c); [apply IH | discriminate].
Qed.

Lemma is_digits_eat (n : nat) (s : string) :
  is_digits n s = true -> eat_class is_digit n s = Some "".
Proof.
  unfold is_digits. destruct (eat_class is_digit n s) as [[ | c r] | ];
    [reflexivity | discriminate | discriminate].
Qed.

(** A property checked on every number below [N] holds below [N]. *)
Lemma checked_below (P : Z -> bool) (N : Z) :
  forallb P (map Z.of_nat (seq 0 (Z.to_nat N))) = true ->
  forall z, 0 <= z < N -> P z = true.
Proof.
  intros H z Hz.
  apply (proj1 (List.forallb_forall P _) H).
  apply List.in_map_iff. exists (Z.to_nat z).
  split; [lia | apply List.in_seq; lia].
Qed.

Lemma zero_pad_4_digits (n : Z) :
  0 <= n < 10000 -> is_digits 4 (zero_pad 4 (str_of_int n)) = true.
Proof.
  apply (checked_below (fun n => is_digits 4 (zero_pad 4 (str_of_int n)))).
  vm_compute. reflexivity.
Qed.

Lemma zero_pad_2_digits (n : Z) :
  0 <= n < 100 -> is_digits 2 (zero_pad 2 (str_of_int n)) = true.
Proof.
  apply (checked_below (fun n => is_digits 2 (zero_pad 2 (str_of_int n)))).
  vm_compute. reflexivity.
Qed.

(** The date of a calendar day is printed on eight digits. *)
Lemma strftime_Ymd_digits (d : MockTicketService.Date) :
  MockTicketService.calendar_date d ->
  eat_class is_digit 8 (MockTicketService.strftime_Ymd d) = Some "".
Proof.
  intros (Hy & Hm & Hd). unfold MockTicketService.strftime_Ymd.
  assert (HY : eat_class is_digit 4
                 (zero_pad 4 (str_of_int (MockTicketService.year d)))
               = Some "") by (apply is_digits_eat, zero_pad_4_digits; lia).
  assert (HM : eat_class is_digit 2
                 (zero_pad 2 (str_of_int (MockTicketService.month d)))
               = Some "") by (apply is_digits_eat, zero_pad_2_digits; lia).
  assert (HD : eat_class is_digit 2
                 (zero_pad 2 (str_of_int (MockTicketService.day d)))
               = Some "") by (apply is_digits_eat, zero_pad_2_digits; lia).
  change 8%nat with (4 + (2 + 2))%nat.
  rewrite (eat_class_add _ 4 _ _ _ (eat_class_app _ 4 _ _ HY)).
  rewrite (eat_class_add _ 2 _ _ _ (eat_class_app _ 2 _ _ HM)).
  exact HD.
Qed.

Lemma eat_dash (r : string) : eat_lit "-" ("-" +:+ r) = Some r.
Proof. reflexivity. Qed.

(** An id put together from a code of [n] letters, eight digits and four
    digits has the shape the pattern asks for after [TKT-]. *)
Lemma ticket_id_rest_built (n : nat) (code date seq : string) :
  eat_class is_upper n code = Some "" ->
  eat_class is_digit 8 date = Some "" ->
  eat_class is_digit 4 seq = Some "" ->
  ticket_id_rest n (code +:+ "-" +:+ date +:+ "-" +:+ seq) = true.
Proof.
  intros Hc Hd Hs. unfold ticket_id_rest.
  rewrite (eat_class_app _ _ _ _ Hc). cbn [mbind option_bind].
  rewrite eat_dash. cbn [mbind option_bind].
  rewrite (eat_class_app _ _ _ _ Hd). cbn [mbind option_bind].
  rewrite eat_dash. cbn [mbind option_bind].
  rewrite Hs. reflexivity.
Qed.

Lemma ticket_id_matches_TKT (x : string) :
  ticket_id_matches ("TKT-" +:+ x) = ticket_id_rest 3 x || ticket_id_rest 2 x.
Proof. reflexivity. Qed.

(** Every department code is two or three capital letters. *)
Lemma dept_code_letters (dep : Department.t) :
  eat_class is_upper 3 (MockTicketService.dept_code dep) = Some ""
  \/ eat_class is_upper 2 (MockTicketService.dept_code dep) = Some "".
Proof. destruct dep; vm_compute; auto. Qed.

(** On a calendar day, and as long as fewer than 9999 ids were numbered for
    the department that day, the generated id matches the pattern. *)
Lemma generate_ticket_id_matches
    (dep : Department.t) (st : MockTicketService.Store) :
  MockTicketService.calendar_date (MockTicketService.today st) ->
  0 <= default 0 (MockTicketService._ticket_counter st
                    !! MockTicketService.counter_key dep st) < 9999 ->
  exists id st',
    MockTicketService._generate_ticket_id dep st = (Returned id, st')
    /\ ticket_id_matches id = true.
Proof.
  intros Hdate Hseq. unfold MockTicketService._generate_ticket_id.
  cbv zeta. eexists; eexists; split; [reflexivity | ].
  remember (default 0 (MockTicketService._ticket_counter st
                         !! MockTicketService.counter_key dep st)) as c.
  assert (Hs : eat_class is_digit 4 (format_04d (c + 1)) = Some "").
  { unfold format_04d. destruct (Z.ltb_spec (c + 1) 0) as [Hneg | _];
      [lia | ].
    apply is_digits_eat, zero_pad_4_digits. lia. }
  pose proof (strftime_Ymd_digits _ Hdate) as Hd.
  rewrite ticket_id_matches_TKT.
  destruct (dept_code_letters dep) as [H3 | H2].
  - rewrite (ticket_id_rest_built 3 _ _ _ H3 Hd Hs). reflexivity.
  - rewrite (ticket_id_rest_built 2 _ _ _ H2 Hd Hs). apply orb_true_r.
Qed.

Lemma generate_ticket_id_matches_witness :
  exists id st',
    MockTicketService._generate_ticket_id Department.REGISTRAR store_fresh
    = (Returned id, st')
    /\ ticket_id_matches id = true.
Proof.
  apply (generate_ticket_id_matches Department.REGISTRAR store_fresh).
  - vm_compute. intuition discriminate.
  - vm_compute. intuition discriminate.
Defined.

(** C9, at the input where it fails. After 9999 ids of a department on one
    day, the next id carries a sequence of five digits: it does not match
    the pattern, the validator of the action result rejects it, and the
    turn ends in a validation error although the ticket has been stored. *)
Theorem generate_ticket_id_overflow :
  fst (MockTicketService._generate_ticket_id Department.IT store_9999)
  = Returned "TKT-IT-20260120-10000"
  /\ ticket_id_matches "TKT-IT-20260120-10000" = false
  /\ validate_ticket_id (Some "TKT-IT-20260120-10000") = false
  /\ (let '(outcome, st) :=
        ActionAgent.execute MockTicketService.service
          (KnowledgeMock _ (Returned ([], []))) (MockLLMService.service _)
          q_password_reset d_password_reset demo_student_hash
          "I forgot my password" store_9999 in
      outcome = Raised (ValidationError ["ticket_id"])
      /\ is_Some (MockTicketService._tickets st !! "TKT-IT-20260120-10000")).
Proof.
  split; [vm_compute; reflexivity | ].
  split; [vm_compute; reflexivity | ].
  split; [vm_compute; reflexivity | ].
  vm_compute. split; [reflexivity | eexists; reflexivity].
Qed.

(** * Further properties *)

(** ** Floats, continued *)

Lemma SFcompare_antisym (f1 f2 : spec_float) :
  SFcompare f2 f1 = option_map CompOpp (SFcompare f1 f2).
Proof.
  destruct f1 as [s1 | s1 | | s1 m1 e1], f2 as [s2 | s2 | | s2 m2 e2];
    cbn; try reflexivity;
    try (destruct s1; reflexivity); try (destruct s2; reflexivity);
    try (destruct s1, s2; reflexivity).
  rewrite (Z.compare_antisym e1 e2).
  change (PosDef.Pos.compare_cont Eq m2 m1) with (Pos.compare m2 m1).
  change (PosDef.Pos.compare_cont Eq m1 m2) with (Pos.compare m1 m2).
  rewrite (Pos.compare_antisym m1 m2).
  destruct s1, s2, (e1 ?= e2), (m1 ?= m2)%positive; reflexivity.
Qed.

(** A float between 0 and 1 is a number. *)
Lemma in_unit_interval_not_nan (x : float) :
  in_unit_interval x = true -> Prim2SF x <> S754_nan.
Proof.
  unfold in_unit_interval. intros H. apply andb_true_iff in H as [H _].
  rewrite FloatAxioms.leb_spec in H. intros E. rewrite E in H.
  unfold SFleb in H. destruct (Prim2SF 0); discriminate H.
Qed.

(** On numbers, [x >= y] is the negation of [x < y]. *)
Lemma float_ge_negb_lt (x y : float) :
  in_unit_interval x = true -> in_unit_interval y = true ->
  float_ge x y = negb (float_lt x y).
Proof.
  intros Hx Hy. apply in_unit_interval_not_nan in Hx, Hy.
  unfold float_ge, float_lt.
  rewrite FloatAxioms.leb_spec, FloatAxioms.ltb_spec.
  unfold SFleb, SFltb. rewrite (SFcompare_antisym (Prim2SF x) (Prim2SF y)).
  destruct (SFcompare (Prim2SF x) (Prim2SF y)) as [[ | | ] | ] eqn:E;
    try reflexivity.
  destruct (Prim2SF x), (Prim2SF y); try discriminate E; congruence.
Qed.

(** ** The router, continued *)

(** With a low confidence and no clarification left to ask,
    [_check_escalation] escalates. *)
Lemma check_escalation_low_confidence
    (s : Settings) (q : QueryResult) (n : Z) :
  RouterAgent.needs_clarification s q n = false ->
  float_lt (confidence q) (confidence_threshold s) = true ->
  fst (RouterAgent._check_escalation s q n) = true
  /\ (requires_escalation q = false -> max_clarification_attempts s <= n).
Proof.
  unfold RouterAgent.needs_clarification, RouterAgent._check_escalation.
  intros Hc Hlt. rewrite Hlt in *.
  destruct (Z.leb_spec (max_clarification_attempts s) n) as [Hn | Hn].
  - destruct (requires_escalation q).
    + repeat case_bool_decide; cbn [fst]; split; intros;
        (reflexivity || discriminate).
    + destruct (bool_decide (intent q ∈ RouterAgent.ESCALATION_INTENTS));
        [destruct (_ || _) | ]; cbn [fst]; split; intros;
        (reflexivity || assumption).
  - destruct (requires_escalation q); [ | discriminate Hc].
    repeat case_bool_decide; cbn [fst]; split; intros;
      (reflexivity || discriminate).
Qed.

(** X1. A decision that does not escalate is routed to the department the
    category table gives for the category of the query, whatever department
    the classifier suggested; for the category human_request this is the
    escalate-to-human department, although the decision does not escalate. *)
Theorem route_department_from_category
    (s : Settings) (q : QueryResult) (n : Z) (d : RoutingDecision) :
  RouterAgent.route s q n = Returned d ->
  escalate_to_human d = false ->
  RouterAgent.CATEGORY_TO_DEPARTMENT (intent_category q) = Some (department d)
  /\ (department d = Department.ESCALATE_TO_HUMAN
      <-> intent_category q = IntentCategory.HUMAN_REQUEST).
Proof.
  intros H Hesc. destruct (route_returned s q n d H) as (_ & He & _ & Hd & _).
  rewrite He in Hesc. rewrite Hesc in Hd. rewrite Hd.
  unfold RouterAgent.department_by_category.
  destruct (intent_category q); cbn [RouterAgent.CATEGORY_TO_DEPARTMENT];
    case_bool_decide as Hne; cbn [fst];
    (split; [try reflexivity
            | split; intros; try congruence; try discriminate]).
  all: try (destruct (department_suggestion q); congruence).
Qed.

Lemma route_department_from_category_witness :
  RouterAgent.CATEGORY_TO_DEPARTMENT (intent_category q_misdirected)
  = Some (department d_misdirected)
  /\ department_suggestion q_misdirected = Department.HR
  /\ department d_misdirected = Department.IT.
Proof.
  split; [ | split; reflexivity].
  apply (route_department_from_category default_settings q_misdirected 0
           d_misdirected).
  - vm_compute. reflexivity.
  - reflexivity.
Defined.

(** X2. [route] returns a decision exactly when the SLA configured for the
    priority of the query is positive; otherwise it raises the validation
    error of the field suggested_sla_hours, and it never raises for another
    reason. *)
Theorem route_outcome (s : Settings) (q : QueryResult) (n : Z) :
  let h := RouterAgent._get_sla_hours s (RouterAgent._determine_priority s q) in
  (0 < h -> exists d, RouterAgent.route s q n = Returned d)
  /\ (h <= 0 ->
      RouterAgent.route s q n
      = Raised (ValidationError ["suggested_sla_hours"])).
Proof.
  cbv zeta.
  pose proof (check_escalation_reason s q n) as Hr.
  unfold RouterAgent.route.
  destruct (RouterAgent.department_by_category q) as [dep rules].
  destruct (RouterAgent._check_escalation s q n) as [esc reason].
  cbn [fst snd] in Hr.
  destruct esc; [destruct reason as [r | ]; [ | discriminate Hr] | ];
    unfold RoutingDecision_new, require_reason_if_escalated;
    cbn [is_None andb negb app];
    (split; intros Hh;
     [ rewrite (proj2 (Z.ltb_lt _ _) Hh); cbn [app]; eexists; reflexivity
     | rewrite (proj2 (Z.ltb_ge _ _) Hh); reflexivity ]).
Qed.

(** X3. More clarification attempts never change the priority nor the SLA
    of a decision, and a query that escalates after [n] attempts gets the
    very same decision after any larger number of attempts. *)
Theorem route_escalation_monotone
    (s : Settings) (q : QueryResult) (n n' : Z) (d d' : RoutingDecision) :
  RouterAgent.route s q n = Returned d ->
  RouterAgent.route s q n' = Returned d' ->
  n <= n' ->
  priority d' = priority d
  /\ suggested_sla_hours d' = suggested_sla_hours d
  /\ (escalate_to_human d = true -> d' = d).
Proof.
  intros H H' Hle.
  destruct (route_returned s q n d H) as (Hp & He & _ & _ & Hs & _).
  destruct (route_returned s q n' d' H') as (Hp' & _ & _ & _ & Hs' & _).
  split; [congruence | split; [congruence | ]].
  intros Hesc. rewrite He in Hesc.
  assert (Hsame : RouterAgent._check_escalation s q n'
                  = RouterAgent._check_escalation s q n).
  { revert Hesc. unfold RouterAgent._check_escalation.
    destruct (requires_escalation q); [reflexivity | ].
    destruct (bool_decide (intent q ∈ RouterAgent.ESCALATION_INTENTS));
      [reflexivity | ].
    destruct (float_lt (confidence q) (confidence_threshold s));
      [ | reflexivity].
    destruct (Z.leb_spec (max_clarification_attempts s) n) as [Hn | Hn];
      cbn [fst]; [intros _ | discriminate].
    rewrite (proj2 (Z.leb_le _ _)) by lia. reflexivity. }
  unfold RouterAgent.route in H, H'. rewrite Hsame in H'.
  rewrite H in H'. injection H' as ->. reflexivity.
Qed.

Lemma route_escalation_monotone_witness :
  priority d_unclear_exhausted = priority d_low
  /\ suggested_sla_hours d_unclear_exhausted = suggested_sla_hours d_low
  /\ (escalate_to_human d_low = true -> d_unclear_exhausted = d_low).
Proof.
  apply (route_escalation_monotone default_settings q_unclear 0 3
           d_low d_unclear_exhausted).
  - vm_compute. reflexivity.
  - vm_compute. reflexivity.
  - lia.
Defined.

(** X4. In the order in which the chat endpoint calls them: when
    [needs_clarification] answers no and the confidence is below the
    threshold, the decision of [route] escalates to a human; unless the
    query was flagged for escalation, this is because the attempts are
    used up. *)
Theorem route_after_clarification_check
    (s : Settings) (q : QueryResult) (n : Z) (d : RoutingDecision) :
  RouterAgent.needs_clarification s q n = false ->
  RouterAgent.route s q n = Returned d ->
  float_lt (confidence q) (confidence_threshold s) = true ->
  escalate_to_human d = true
  /\ department d = Department.ESCALATE_TO_HUMAN
  /\ (requires_escalation q = false ->
      max_clarification_attempts s <= n).
Proof.
  intros Hc H Hlt.
  destruct (route_returned s q n d H) as (_ & He & _ & Hd & _).
  destruct (check_escalation_low_confidence s q n Hc Hlt) as (Hesc & Hmax).
  rewrite Hd, He, Hesc. split; [reflexivity | split; [reflexivity | exact Hmax]].
Qed.

Lemma route_after_clarification_check_witness :
  escalate_to_human d_unclear_exhausted = true
  /\ department d_unclear_exhausted = Department.ESCALATE_TO_HUMAN
  /\ (requires_escalation q_unclear = false ->
      max_clarification_attempts default_settings <= 3).
Proof.
  apply (route_after_clarification_check default_settings q_unclear 3
           d_unclear_exhausted).
  - vm_compute. reflexivity.
  - vm_compute. reflexivity.
  - vm_compute. reflexivity.
Defined.

(** X5. [needs_clarification] does not look at the intent: whenever it
    asks for a clarification, [route] on the same query and attempts would
    escalate exactly when the intent is one of the escalation intents. *)
Theorem route_while_clarifying
    (s : Settings) (q : QueryResult) (n : Z) (d : RoutingDecision) :
  RouterAgent.needs_clarification s q n = true ->
  RouterAgent.route s q n = Returned d ->
  (escalate_to_human d = true <-> intent q ∈ RouterAgent.ESCALATION_INTENTS).
Proof.
  intros Hc H.
  destruct (route_returned s q n d H) as (_ & He & _).
  rewrite He. clear H He. revert Hc.
  unfold RouterAgent.needs_clarification, RouterAgent._check_escalation.
  destruct (Z.leb_spec (max_clarification_attempts s) n) as [Hn | Hn];
    [discriminate | ].
  destruct (requires_escalation q); [discriminate | ].
  intros ->.
  case_bool_decide as Hin.
  - destruct (_ || _); cbn [fst]; split; intros;
      [assumption | reflexivity | assumption | reflexivity].
  - cbn [fst]. split; [discriminate | contradiction].
Qed.

Lemma route_while_clarifying_witness :
  (escalate_to_human d_low = true
   <-> intent q_unclear ∈ RouterAgent.ESCALATION_INTENTS)
  /\ (escalate_to_human d_request_human_unsure = true
      <-> intent q_request_human_unsure ∈ RouterAgent.ESCALATION_INTENTS).
Proof.
  split.
  - apply (route_while_clarifying default_settings q_unclear 0 d_low).
    + vm_compute. reflexivity.
    + vm_compute. reflexivity.
  - apply (route_while_clarifying default_settings q_request_human_unsure 0
             d_request_human_unsure).
    + vm_compute. reflexivity.
    + vm_compute. reflexivity.
Defined.

(** X6. With a confidence and a threshold between 0 and 1, as the schemas
    require, and in the order in which the chat endpoint calls them: a
    decision of low priority that follows a negative [needs_clarification]
    always escalates; it belongs to a general inquiry whose clarification
    attempts are used up. *)
Theorem route_low_priority_is_escalated
    (s : Settings) (q : QueryResult) (n : Z) (d : RoutingDecision) :
  in_unit_interval (confidence q) = true ->
  in_unit_interval (confidence_threshold s) = true ->
  RouterAgent.needs_clarification s q n = false ->
  RouterAgent.route s q n = Returned d ->
  priority d = Priority.LOW ->
  escalate_to_human d = true
  /\ intent_category q = IntentCategory.GENERAL_INQUIRY
  /\ max_clarification_attempts s <= n.
Proof.
  intros Hq Hs Hc H Hlow.
  destruct (route_returned s q n d H) as (Hp & He & _).
  rewrite Hp in Hlow. rewrite He. clear H Hp He.
  assert (Hl : requires_escalation q = false
               /\ float_lt (confidence q) (confidence_threshold s) = true
               /\ intent_category q = IntentCategory.GENERAL_INQUIRY).
  { revert Hlow. unfold RouterAgent._determine_priority.
    rewrite (float_ge_negb_lt _ _ Hq Hs).
    destruct (requires_escalation q); [discriminate | ].
    repeat case_bool_decide; cbn [negb]; try discriminate;
      destruct (float_lt (confidence q) (confidence_threshold s));
      cbn [negb]; try discriminate; intros _; auto. }
  destruct Hl as (Hflag & Hlt & Hcat).
  destruct (check_escalation_low_confidence s q n Hc Hlt) as (Hesc & Hmax).
  split; [exact Hesc | split; [exact Hcat | exact (Hmax Hflag)]].
Qed.

Lemma route_low_priority_is_escalated_witness :
  escalate_to_human d_unclear_exhausted = true
  /\ intent_category q_unclear = IntentCategory.GENERAL_INQUIRY
  /\ max_clarification_attempts default_settings <= 3.
Proof.
  apply (route_low_priority_is_escalated default_settings q_unclear 3
           d_unclear_exhausted).
  - vm_compute. reflexivity.
  - vm_compute. reflexivity.
  - vm_compute. reflexivity.
  - vm_compute. reflexivity.
  - reflexivity.
Defined.

(** X7. The priority of a decision is urgent exactly when the query was
    flagged for escalation, and an urgent decision always escalates, for a
    reason other than the used-up clarifications. *)
Theorem route_urgent_is_escalated
    (s : Settings) (q : QueryResult) (n : Z) (d : RoutingDecision) :
  RouterAgent.route s q n = Returned d ->
  (priority d = Priority.URGENT <-> requires_escalation q = true)
  /\ (priority d = Priority.URGENT ->
      escalate_to_human d = true
      /\ escalation_reason d
         <> Some EscalationReason.MAX_CLARIFICATIONS_EXCEEDED).
Proof.
  intros H.
  destruct (route_returned s q n d H) as (Hp & He & Hr & _).
  rewrite Hp, He, Hr. clear.
  assert (Hu : RouterAgent._determine_priority s q = Priority.URGENT
               <-> requires_escalation q = true).
  { unfold RouterAgent._determine_priority.
    destruct (requires_escalation q); [split; reflexivity | ].
    repeat case_bool_decide; cbn [negb];
      destruct (float_ge (confidence q) (confidence_threshold s));
      split; discriminate. }
  split; [exact Hu | ].
  intros E. apply Hu in E. unfold RouterAgent._check_escalation. rewrite E.
  repeat case_bool_decide; cbn [fst snd]; split; (reflexivity || discriminate).
Qed.

Lemma route_urgent_is_escalated_witness :
  (priority d_grade_appeal = Priority.URGENT
   <-> requires_escalation q_grade_appeal = true)
  /\ (priority d_grade_appeal = Priority.URGENT ->
      escalate_to_human d_grade_appeal = true
      /\ escalation_reason d_grade_appeal
         <> Some EscalationReason.MAX_CLARIFICATIONS_EXCEEDED).
Proof.
  apply (route_urgent_is_escalated default_settings q_grade_appeal 0).
  vm_compute. reflexivity.
Defined.

(** X8. The rules recorded in a decision are, in this order: the
    suggestion of the classifier; the category mapping, when the table
    gives another department than the suggestion; the priority of the
    decision; its escalation reason, when there is one; its SLA. *)
Theorem route_rules_trail
    (s : Settings) (q : QueryResult) (n : Z) (d : RoutingDecision) :
  RouterAgent.route s q n = Returned d ->
  routing_rules_applied d
  = ["query_agent_suggestion"]
    ++ (if bool_decide
             (RouterAgent.CATEGORY_TO_DEPARTMENT (intent_category q)
              = Some (department_suggestion q))
        then [] else ["category_to_department_mapping"])
    ++ ["priority_" +:+ str_lower (Priority.value (priority d))]
    ++ match escalation_reason d with
       | Some r => ["escalation_" +:+ EscalationReason.value r]
       | None => []
       end
    ++ ["sla_" +:+ str_of_int (suggested_sla_hours d) +:+ "h"].
Proof.
  unfold RouterAgent.route.
  assert (Hdep : RouterAgent.department_by_category q
                 = (default (department_suggestion q)
                      (RouterAgent.CATEGORY_TO_DEPARTMENT (intent_category q)),
                    ["query_agent_suggestion"]
                    ++ (if bool_decide
                             (RouterAgent.CATEGORY_TO_DEPARTMENT
                                (intent_category q)
                              = Some (department_suggestion q))
                        then [] else ["category_to_department_mapping"]))).
  { unfold RouterAgent.department_by_category.
    destruct (intent_category q); cbn [RouterAgent.CATEGORY_TO_DEPARTMENT];
      repeat case_bool_decide; cbv [default from_option id];
      cbn [app]; try reflexivity; congruence. }
  rewrite Hdep. clear Hdep.
  destruct (RouterAgent._check_escalation s q n) as [esc reason].
  destruct esc; [destruct reason as [r | ]; [ | discriminate] | ];
    unfold RoutingDecision_new, require_reason_if_escalated;
    cbn [is_None andb negb app];
    destruct (0 <? _); cbn [app]; try discriminate;
    intros H; injection H as <-;
    cbn [routing_rules_applied priority escalation_reason
         suggested_sla_hours];
    rewrite <- ?app_assoc; reflexivity.
Qed.

Lemma route_rules_trail_witness :
  routing_rules_applied d_grade_appeal
  = ["query_agent_suggestion"; "category_to_department_mapping";
     "priority_urgent"; "escalation_policy_keyword_detected"; "sla_1h"].
Proof.
  rewrite (route_rules_trail default_settings q_grade_appeal 0 d_grade_appeal).
  - vm_compute. reflexivity.
  - vm_compute. reflexivity.
Defined.

(** ** The action agent, continued *)

Lemma SLA_DESCRIPTIONS_lookup (h : Z) :
  ActionAgent.SLA_DESCRIPTIONS !! h
  = if bool_decide (h = 1) then Some "within 1 hour"
    else if bool_decide (h = 4) then Some "within 4 hours"
    else if bool_decide (h = 24) then Some "within 1 business day"
    else if bool_decide (h = 48) then Some "within 2 business days"
    else if bool_decide (h = 72) then Some "within 3 business days"
    else None.
Proof.
  unfold ActionAgent.SLA_DESCRIPTIONS.
  cbn [list_to_map foldr fst snd curry uncurry].
  repeat (case_bool_decide;
          [subst h; repeat (rewrite lookup_insert_ne by discriminate);
           apply lookup_insert_eq
          | rewrite lookup_insert_ne by congruence ]).
  apply lookup_empty.
Qed.

(** X10. [_format_sla] for every number of hours: from 24 hours on, the
    whole days, in the singular for one day (the table agrees with this
    rule at 24, 48 and 72); below 24 hours, the hours in the plural, also
    for 0 and for a negative number; and "within 1 hour" for one hour. *)
Theorem format_sla_spec (h : Z) :
  (24 <= h ->
   ActionAgent._format_sla h
   = "within " +:+ str_of_int (h / 24) +:+ " business day" +:+
     (if 1 <? h / 24 then "s" else ""))
  /\ (h < 24 -> h <> 1 ->
      ActionAgent._format_sla h = "within " +:+ str_of_int h +:+ " hours")
  /\ ActionAgent._format_sla 1 = "within 1 hour".
Proof.
  unfold ActionAgent._format_sla. rewrite SLA_DESCRIPTIONS_lookup.
  split; [ | split; [ | reflexivity]].
  - intros Hh.
    repeat (case_bool_decide; [subst h; try lia; try reflexivity | ]).
    rewrite (proj2 (Z.ltb_ge _ _) Hh). reflexivity.
  - intros Hh H1.
    repeat (case_bool_decide; [subst h; try lia; try reflexivity | ]).
    rewrite (proj2 (Z.ltb_lt _ _) Hh). reflexivity.
Qed.

(** X9. With the default settings, the response time announced for a
    decision of [route] depends on its priority alone: one hour when
    urgent, four hours when high, one business day when medium and three
    business days when low. *)
Theorem route_default_response_time
    (q : QueryResult) (n : Z) (d : RoutingDecision) :
  RouterAgent.route default_settings q n = Returned d ->
  ActionAgent._format_sla (suggested_sla_hours d)
  = match priority d with
    | Priority.URGENT => "within 1 hour"
    | Priority.HIGH => "within 4 hours"
    | Priority.MEDIUM => "within 1 business day"
    | Priority.LOW => "within 3 business days"
    end.
Proof.
  intros H.
  destruct (route_returned default_settings q n d H)
    as (Hp & _ & _ & _ & Hs & _).
  rewrite Hs, Hp.
  destruct (RouterAgent._determine_priority default_settings q);
    vm_compute; reflexivity.
Qed.

Lemma route_default_response_time_witness :
  ActionAgent._format_sla (suggested_sla_hours d_password_reset)
  = "within 1 business day".
Proof.
  apply (route_default_response_time q_password_reset 0 d_password_reset).
  vm_compute. reflexivity.
Defined.

Lemma prefix_append (a b : string) : String.prefix a (a +:+ b) = true.
Proof.
  induction a as [ | c a IH]; [destruct b; reflexivity | ].
  change (String c a +:+ b) with (String c (a +:+ b)). cbn.
  destruct (ascii_dec c c) as [_ | Hne]; [exact IH | contradiction].
Qed.

Lemma prefix_append_cancel (a b c : string) :
  String.prefix (a +:+ b) (a +:+ c) = String.prefix b c.
Proof.
  induction a as [ | x a IH]; [reflexivity | ].
  change (String x a +:+ b) with (String x (a +:+ b)).
  change (String x a +:+ c) with (String x (a +:+ c)). cbn.
  destruct (ascii_dec x x) as [_ | Hne]; [exact IH | contradiction].
Qed.

Section ExecuteMore.
Context {W : Type}.
Variable T : TicketServiceInterface W.
Variable K : KnowledgeServiceInterface W.

(** The status and the ticket id of a result follow the ticket decision
    taken on the articles of the result. *)
Lemma execute_returned_decision
    (L : LLMServiceInterface W)
    (q : QueryResult) (rd : RoutingDecision) (h m : string) (w w' : W)
    (r : ActionResult) :
  ActionAgent.execute T K L q rd h m w = (Returned r, w') ->
  status r
  = (if ActionAgent._should_create_ticket rd (knowledge_articles r)
     then if escalate_to_human rd
          then ActionStatus.ESCALATED else ActionStatus.CREATED
     else ActionStatus.KB_ONLY)
  /\ (if ActionAgent._should_create_ticket rd (knowledge_articles r)
      then exists id, ticket_id r = Some id /\ ticket_id_matches id = true
      else ticket_id r = None)
  /\ escalated r = escalate_to_human rd
  /\ validate_ticket_id (ticket_id r) = true
  /\ (length (knowledge_articles r) <=? 3)%nat = true.
Proof.
  unfold ActionAgent.execute, ActionAgent._search_knowledge_with_content,
    eff_bind, eff_ret, eff_lift.
  destruct (search_with_content _ _ _ w) as [[[arts conts] | e] w1];
    [ | discriminate].
  destruct (ActionAgent._should_create_ticket rd arts) eqn:Hc.
  - destruct (create_ticket _ _ _ _ _ _ w1) as [[[tid turl] | e] w2];
      [ | discriminate].
    destruct (generate_response_message _ _ _ _ _ _ _ _ w2)
      as [[msg | e] w3]; [ | discriminate].
    unfold ActionResult_new.
    destruct (validate_ticket_id (Some tid)) eqn:Hv;
      destruct (length arts <=? 3)%nat eqn:Hl; cbn [app]; try discriminate.
    intros H. inversion H; subst; clear H.
    cbn [status ticket_id knowledge_articles escalated]. rewrite Hc.
    split; [reflexivity | ].
    split; [exists tid; split; [reflexivity | exact Hv] | ].
    split; [reflexivity | split; [exact Hv | exact Hl]].
  - destruct (generate_response_message _ _ _ _ _ _ _ _ w1)
      as [[msg | e] w3]; [ | discriminate].
    unfold ActionResult_new. cbn [validate_ticket_id app].
    destruct (length arts <=? 3)%nat eqn:Hl; cbn [app]; try discriminate.
    intros H. inversion H; subst; clear H.
    cbn [status ticket_id knowledge_articles escalated]. rewrite Hc.
    split; [reflexivity | split; [reflexivity | ]].
    split; [reflexivity | split; [reflexivity | exact Hl]].
Qed.

(** X11. What a result of [execute] holds: the department, the escalation
    flag and the formatted SLA of the decision; the articles exactly as the
    search returned them, at most three; a ticket id that the validator
    accepts; a ticket url exactly when there is a ticket id; and no ticket
    id exactly when the ticket decision on these articles was negative. *)
Theorem execute_result_fields
    (L : LLMServiceInterface W)
    (q : QueryResult) (rd : RoutingDecision) (h m : string) (w w' : W)
    (r : ActionResult) :
  ActionAgent.execute T K L q rd h m w = (Returned r, w') ->
  ar_department r = department rd
  /\ escalated r = escalate_to_human rd
  /\ estimated_response_time r
     = ActionAgent._format_sla (suggested_sla_hours rd)
  /\ (exists contents w1,
        search_with_content (ActionAgent.search_query_of q)
          (ActionAgent.dept_filter (department rd)) 3 w
        = (Returned (knowledge_articles r, contents), w1))
  /\ (length (knowledge_articles r) <= 3)%nat
  /\ validate_ticket_id (ticket_id r) = true
  /\ (ticket_id r = None <-> ticket_url r = None)
  /\ (ticket_id r = None <->
      ActionAgent._should_create_ticket rd (knowledge_articles r) = false).
Proof.
  unfold ActionAgent.execute, ActionAgent._search_knowledge_with_content,
    eff_bind, eff_ret, eff_lift.
  destruct (search_with_content _ _ _ w) as [[[arts conts] | e] w1] eqn:Hs;
    [ | discriminate].
  destruct (ActionAgent._should_create_ticket rd arts) eqn:Hc.
  - destruct (create_ticket _ _ _ _ _ _ w1) as [[[tid turl] | e] w2];
      [ | discriminate].
    destruct (generate_response_message _ _ _ _ _ _ _ _ w2)
      as [[msg | e] w3]; [ | discriminate].
    unfold ActionResult_new.
    destruct (validate_ticket_id (Some tid)) eqn:Hv;
      destruct (length arts <=? 3)%nat eqn:Hl; cbn [app]; try discriminate.
    intros H. inversion H; subst; clear H. cbn.
    repeat split; intros; try reflexivity; try discriminate; try congruence.
    + exists conts, w1. reflexivity.
    + apply Nat.leb_le. exact Hl.
    + exact Hv.
  - destruct (generate_response_message _ _ _ _ _ _ _ _ w1)
      as [[msg | e] w3]; [ | discriminate].
    unfold ActionResult_new. cbn [validate_ticket_id app].
    destruct (length arts <=? 3)%nat eqn:Hl; cbn [app]; try discriminate.
    intros H. inversion H; subst; clear H. cbn.
    repeat split; intros; try reflexivity; try assumption.
    + exists conts, w1. reflexivity.
    + apply Nat.leb_le. exact Hl.
Qed.

(** X12. When the ticket decision on the articles found is negative,
    [execute] does not call the ticket service: it behaves the same with
    any two ticket services, and a result it returns has the status
    kb_only, without ticket id nor ticket url. *)
Theorem execute_kb_only_skips_tickets
    (T' : TicketServiceInterface W) (L : LLMServiceInterface W)
    (q : QueryResult) (rd : RoutingDecision) (h m : string) (w w1 : W)
    (articles : list KnowledgeArticle) (contents : list ArticleContent) :
  search_with_content (ActionAgent.search_query_of q)
    (ActionAgent.dept_filter (department rd)) 3 w
  = (Returned (articles, contents), w1) ->
  ActionAgent._should_create_ticket rd articles = false ->
  ActionAgent.execute T K L q rd h m w = ActionAgent.execute T' K L q rd h m w
  /\ (forall r w',
        ActionAgent.execute T K L q rd h m w = (Returned r, w') ->
        status r = ActionStatus.KB_ONLY
        /\ ticket_id r = None /\ ticket_url r = None).
Proof.
  intros Hs Hc.
  unfold ActionAgent.execute, ActionAgent._search_knowledge_with_content,
    eff_bind, eff_ret, eff_lift.
  rewrite Hs, Hc. split; [reflexivity | ].
  intros r w'.
  destruct (generate_response_message _ _ _ _ _ _ _ _ w1)
    as [[msg | e] w3]; [ | discriminate].
  unfold ActionResult_new. cbn [validate_ticket_id app].
  destruct (length articles <=? 3)%nat; cbn [app]; [ | discriminate].
  intros H. inversion H; subst; clear H. repeat split.
Qed.

(** X13. For a decision of [route] handed to [execute]: the status of the
    result is escalated exactly when the decision escalates; and a query
    that is flagged for escalation, or whose sentiment is frustrated or
    urgent, or that carries an urgency indicator always gets a ticket,
    never the status kb_only, however relevant the articles found. *)
Theorem route_execute_status
    (L : LLMServiceInterface W) (s : Settings)
    (q : QueryResult) (n : Z) (d : RoutingDecision) (h m : string) (w w' : W)
    (r : ActionResult) :
  RouterAgent.route s q n = Returned d ->
  ActionAgent.execute T K L q d h m w = (Returned r, w') ->
  (status r = ActionStatus.ESCALATED <-> escalate_to_human d = true)
  /\ (requires_escalation q = true \/ sentiment q = Sentiment.FRUSTRATED
      \/ sentiment q = Sentiment.URGENT \/ urgency_indicators q <> [] ->
      status r <> ActionStatus.KB_ONLY /\ is_Some (ticket_id r)).
Proof.
  intros Hr He.
  destruct (route_returned s q n d Hr) as (Hp & _).
  destruct (execute_returned_decision L q d h m w w' r He)
    as (Hs & Hid & _).
  split.
  - rewrite Hs. unfold ActionAgent._should_create_ticket.
    destruct (escalate_to_human d); [split; reflexivity | ].
    destruct (_ || _); [split; discriminate | ].
    destruct (knowledge_articles r) as [ | top rest]; [split; discriminate | ].
    destruct (float_ge _ _); split; discriminate.
  - intros Hurgent.
    assert (Hhigh : priority d = Priority.HIGH \/ priority d = Priority.URGENT).
    { rewrite Hp. unfold RouterAgent._determine_priority.
      destruct (requires_escalation q); [right; reflexivity | left].
      destruct Hurgent as [Hf | [Hf | [Hf | Hf]]]; [discriminate Hf | | | ];
        repeat case_bool_decide; cbn [negb]; try reflexivity; congruence. }
    assert (Hc : ActionAgent._should_create_ticket d (knowledge_articles r)
                 = true).
    { unfold ActionAgent._should_create_ticket.
      destruct (escalate_to_human d); [reflexivity | ].
      destruct Hhigh as [-> | ->]; reflexivity. }
    rewrite Hc in Hs, Hid. destruct Hid as (id & Hid & _).
    split; [rewrite Hs; destruct (escalate_to_human d); discriminate | ].
    rewrite Hid. eexists; reflexivity.
Qed.

(** X14. With the response message of the mock LLM service, and whatever
    the ticket service and the knowledge service: when PII was detected,
    nothing that [execute] returns or leaves behind depends on the message
    of the user. *)
Theorem execute_pii_message_independent
    (q : QueryResult) (rd : RoutingDecision) (h m1 m2 : string) (w : W) :
  pii_detected q = true ->
  ActionAgent.execute T K (MockLLMService.service W) q rd h m1 w
  = ActionAgent.execute T K (MockLLMService.service W) q rd h m2 w.
Proof.
  intros Hpii.
  unfold ActionAgent.execute, ActionAgent._generate_ticket_description.
  rewrite Hpii. reflexivity.
Qed.

(** X15. With the response message of the mock LLM service: the message of
    a result for an escalating decision of [route] names the human support
    specialist, the formatted SLA after the word within, and the id of the
    ticket that was created, which is never missing. *)
Theorem execute_escalated_message
    (s : Settings) (q : QueryResult) (n : Z) (d : RoutingDecision)
    (h m : string) (w w' : W) (r : ActionResult) :
  RouterAgent.route s q n = Returned d ->
  escalate_to_human d = true ->
  ActionAgent.execute T K (MockLLMService.service W) q d h m w
  = (Returned r, w') ->
  exists id,
    ticket_id r = Some id
    /\ status r = ActionStatus.ESCALATED
    /\ user_message r
       = "I've forwarded your request to a human support specialist" +:+
         " for personal attention. " +:+
         "A team member will reach out to you within " +:+
         ActionAgent._format_sla (suggested_sla_hours d) +:+ ". " +:+
         "Your reference number is " +:+ id +:+ ".".
Proof.
  intros Hr Hesc.
  destruct (route_returned s q n d Hr) as (_ & He & _ & Hd & _).
  rewrite <- He, Hesc in Hd. clear Hr He.
  unfold ActionAgent.execute, ActionAgent._search_knowledge_with_content,
    eff_bind, eff_ret, eff_lift.
  destruct (search_with_content _ _ _ w) as [[[arts conts] | e] w1];
    [ | discriminate].
  unfold ActionAgent._should_create_ticket. rewrite Hesc.
  destruct (create_ticket _ _ _ _ _ _ w1) as [[[tid turl] | e] w2];
    [ | discriminate].
  cbn [generate_response_message MockLLMService.service eff_ret].
  unfold ActionResult_new.
  destruct (validate_ticket_id (Some tid));
    destruct (length arts <=? 3)%nat; cbn [app]; try discriminate.
  intros H. inversion H; subst; clear H.
  exists tid. cbn [ticket_id status user_message].
  split; [reflexivity | split; [reflexivity | ]].
  unfold MockLLMService.response_message. rewrite Hd. reflexivity.
Qed.

(** X27. With the response message of the mock LLM service, for a decision
    that does not escalate: a result with a ticket id has the status
    created and its message opens by quoting this id, the department and
    the formatted SLA after the word within; a result without ticket id has
    the status kb_only and its message opens with the helpful information
    found, without any mention of a ticket. *)
Theorem execute_message_by_status
    (q : QueryResult) (rd : RoutingDecision) (h m : string) (w w' : W)
    (r : ActionResult) :
  ActionAgent.execute T K (MockLLMService.service W) q rd h m w
  = (Returned r, w') ->
  escalate_to_human rd = false ->
  exists name,
    MockLLMService.dept_names (department rd) = Some name
    /\ match ticket_id r with
       | Some id =>
           status r = ActionStatus.CREATED
           /\ String.prefix
                ("I've created a support ticket (" +:+ id +:+
                 ") and routed it to " +:+ name +:+ ". " +:+
                 "You can expect a response within " +:+
                 ActionAgent._format_sla (suggested_sla_hours rd) +:+ ".")
                (user_message r) = true
       | None =>
           status r = ActionStatus.KB_ONLY
           /\ String.prefix
                ("I've found some helpful information from " +:+ name +:+ ".")
                (user_message r) = true
       end.
Proof.
  intros H Hesc.
  assert (Hn : exists name,
             MockLLMService.dept_names (department rd) = Some name).
  { destruct (department rd); eexists; reflexivity. }
  destruct Hn as (name & Hn). exists name. split; [exact Hn | ].
  revert H.
  unfold ActionAgent.execute, ActionAgent._search_knowledge_with_content,
    eff_bind, eff_ret, eff_lift.
  destruct (search_with_content _ _ _ w) as [[[arts conts] | e] w1];
    [ | discriminate].
  destruct (ActionAgent._should_create_ticket rd arts).
  - destruct (create_ticket _ _ _ _ _ _ w1) as [[[tid turl] | e] w2];
      [ | discriminate].
    cbn [generate_response_message MockLLMService.service eff_ret].
    unfold ActionResult_new.
    destruct (validate_ticket_id (Some tid)) eqn:Hv;
      destruct (length arts <=? 3)%nat; cbn [app]; try discriminate.
    intros H. inversion H; subst; clear H.
    cbn [ticket_id status user_message]. rewrite Hesc.
    split; [reflexivity | ].
    unfold MockLLMService.response_message. rewrite Hn.
    cbv [default from_option id MockLLMService.str_of_optional].
    assert (Hne : bool_decide (tid = "") = false).
    { apply bool_decide_eq_false_2. intros ->. discriminate Hv. }
    rewrite Hne. cbn [negb].
    match goal with
    | |- context [if ?b then _ else _] => destruct b
    end.
    + apply prefix_append.
    + apply prefix_append.
  - cbn [generate_response_message MockLLMService.service eff_ret].
    unfold ActionResult_new. cbn [validate_ticket_id app].
    destruct (length arts <=? 3)%nat; cbn [app]; try discriminate.
    intros H. inversion H; subst; clear H.
    cbn [ticket_id status user_message].
    split; [reflexivity | ].
    unfold MockLLMService.response_message. rewrite Hn, Hesc.
    cbv [default from_option id].
    change (bool_decide ("" = "")) with true. cbn [negb].
    match goal with
    | |- context [if negb ?b then _ else _] => destruct b
    end; cbn [negb].
    + rewrite !prefix_append_cancel. reflexivity.
    + rewrite !prefix_append_cancel. apply (prefix_append ".").
Qed.

(** X28. The records that the chat endpoint builds from a decision of
    [route] and the result of [execute] on it pass their validators: the
    audit entry carries an escalation reason whenever it is marked
    escalated, and the chat response carries a ticket id that matches the
    pattern, or none, and at most three articles. *)
Theorem chat_records_validate
    (L : LLMServiceInterface W) (s : Settings)
    (q : QueryResult) (n : Z) (d : RoutingDecision) (h m : string) (w w' : W)
    (r : ActionResult) :
  RouterAgent.route s q n = Returned d ->
  ActionAgent.execute T K L q d h m w = (Returned r, w') ->
  AuditLog_require_reason_if_escalated (escalated r)
    (option_map EscalationReason.value (escalation_reason d)) = true
  /\ validate_ticket_id (ticket_id r) = true
  /\ (length (knowledge_articles r) <=? 3)%nat = true.
Proof.
  intros Hr He.
  destruct (route_returned s q n d Hr) as (_ & Hesc & Hreason & _).
  pose proof (check_escalation_reason s q n) as Hc.
  destruct (execute_returned_decision L q d h m w w' r He)
    as (_ & _ & Heq & Hv & Hl).
  split; [ | split; [exact Hv | exact Hl]].
  rewrite Heq, Hesc, Hreason.
  unfold AuditLog_require_reason_if_escalated.
  destruct (RouterAgent._check_escalation s q n) as [esc reason].
  cbn [fst snd] in *.
  destruct esc, reason; cbn in Hc |- *; try reflexivity; discriminate Hc.
Qed.

End ExecuteMore.

Lemma execute_result_fields_witness :
  exists r st',
    ActionAgent.execute MockTicketService.service
      (KnowledgeMock _ (Returned ([article_poor], [content_reset])))
      (MockLLMService.service _)
      q_password_reset d_password_reset demo_student_hash
      "I forgot my password" store_fresh
    = (Returned r, st')
    /\ ar_department r = Department.IT
    /\ knowledge_articles r = [article_poor]
    /\ validate_ticket_id (ticket_id r) = true.
Proof.
  destruct (ActionAgent.execute MockTicketService.service
              (KnowledgeMock _ (Returned ([article_poor], [content_reset])))
              (MockLLMService.service _)
              q_password_reset d_password_reset demo_student_hash
              "I forgot my password" store_fresh) as [[r | e] st'] eqn:H.
  - exists r, st'. split; [reflexivity | ].
    destruct (execute_result_fields _ _ _ _ _ _ _ _ _ _ H)
      as (Hd & _ & _ & (conts & w1 & Hs) & _ & Hv & _).
    split; [exact Hd | split; [ | exact Hv]].
    vm_compute in Hs. injection Hs as Hs _ _. symmetry. exact Hs.
  - exfalso. vm_compute in H. discriminate H.
Defined.

Lemma execute_kb_only_skips_tickets_witness :
  ActionAgent.execute (TicketMock _ (Raised tickets_unavailable))
    (KnowledgeMock _ (Returned ([article_good], [content_reset])))
    (MockLLMService.service _)
    q_general_confident d_general_confident demo_student_hash
    "Where is the library?" store_fresh
  = ActionAgent.execute MockTicketService.service
      (KnowledgeMock _ (Returned ([article_good], [content_reset])))
      (MockLLMService.service _)
      q_general_confident d_general_confident demo_student_hash
      "Where is the library?" store_fresh.
Proof.
  apply (execute_kb_only_skips_tickets
           (TicketMock _ (Raised tickets_unavailable))
           (KnowledgeMock _ (Returned ([article_good], [content_reset])))
           MockTicketService.service (MockLLMService.service _)
           q_general_confident d_general_confident demo_student_hash
           "Where is the library?" store_fresh store_fresh
           [article_good] [content_reset]).
  - reflexivity.
  - reflexivity.
Defined.

Lemma route_execute_status_witness :
  exists r st',
    ActionAgent.execute MockTicketService.service
      (KnowledgeMock _ (Returned ([article_good], [content_reset])))
      (MockLLMService.service _)
      q_grade_appeal d_grade_appeal demo_student_hash
      "I want to appeal my grade" store_fresh
    = (Returned r, st')
    /\ (status r = ActionStatus.ESCALATED
        <-> escalate_to_human d_grade_appeal = true)
    /\ status r <> ActionStatus.KB_ONLY.
Proof.
  destruct (ActionAgent.execute MockTicketService.service
              (KnowledgeMock _ (Returned ([article_good], [content_reset])))
              (MockLLMService.service _)
              q_grade_appeal d_grade_appeal demo_student_hash
              "I want to appeal my grade" store_fresh)
    as [[r | e] st'] eqn:H.
  - exists r, st'. split; [reflexivity | ].
    assert (Hr : RouterAgent.route default_settings q_grade_appeal 0
                 = Returned d_grade_appeal) by (vm_compute; reflexivity).
    destruct (route_execute_status _ _ _ _ _ _ _ _ _ _ _ _ Hr H) as (Hs & Hu).
    split; [exact Hs | ].
    apply Hu. left. reflexivity.
  - exfalso. vm_compute in H. discriminate H.
Defined.

Lemma execute_pii_message_independent_witness :
  ActionAgent.execute MockTicketService.service
    (KnowledgeMock _ (Returned ([], []))) (MockLLMService.service _)
    q_with_pii d_with_pii demo_student_hash
    "My SSN is 123-45-6789, where is my aid?" store_fresh
  = ActionAgent.execute MockTicketService.service
      (KnowledgeMock _ (Returned ([], []))) (MockLLMService.service _)
      q_with_pii d_with_pii demo_student_hash "anything else" store_fresh.
Proof.
  apply (execute_pii_message_independent MockTicketService.service
           (KnowledgeMock _ (Returned ([], [])))).
  reflexivity.
Defined.

Lemma execute_escalated_message_witness :
  exists r st' id,
    ActionAgent.execute MockTicketService.service
      (KnowledgeMock _ (Returned ([article_good], [content_reset])))
      (MockLLMService.service _)
      q_grade_appeal d_grade_appeal demo_student_hash
      "I want to appeal my grade" store_fresh
    = (Returned r, st')
    /\ ticket_id r = Some id
    /\ user_message r
       = "I've forwarded your request to a human support specialist" +:+
         " for personal attention. " +:+
         "A team member will reach out to you within " +:+
         ActionAgent._format_sla (suggested_sla_hours d_grade_appeal) +:+
         ". " +:+ "Your reference number is " +:+ id +:+ ".".
Proof.
  destruct (ActionAgent.execute MockTicketService.service
              (KnowledgeMock _ (Returned ([article_good], [content_reset])))
              (MockLLMService.service _)
              q_grade_appeal d_grade_appeal demo_student_hash
              "I want to appeal my grade" store_fresh)
    as [[r | e] st'] eqn:H.
  - assert (Hr : RouterAgent.route default_settings q_grade_appeal 0
                 = Returned d_grade_appeal) by (vm_compute; reflexivity).
    destruct (execute_escalated_message _ _ _ _ _ _ _ _ _ _ _ Hr eq_refl H)
      as (id & Hid & _ & Hm).
    exists r, st', id. split; [reflexivity | split; [exact Hid | exact Hm]].
  - exfalso. vm_compute in H. discriminate H.
Defined.

(** The message of the grade appeal, as the student reads it. *)
Example escalated_message_as_read :
  exists r st',
    ActionAgent.execute MockTicketService.service
      (KnowledgeMock _ (Returned ([article_good], [content_reset])))
      (MockLLMService.service _)
      q_grade_appeal d_grade_appeal demo_student_hash
      "I want to appeal my grade" store_fresh
    = (Returned r, st')
    /\ user_message r
       = "I've forwarded your request to a human support specialist for personal attention. A team member will reach out to you within within 1 hour. Your reference number is TKT-ESC-20260120-0001.".
Proof. eexists; eexists. split; vm_compute; reflexivity. Qed.

Lemma execute_message_by_status_witness :
  exists r st',
    ActionAgent.execute MockTicketService.service
      (KnowledgeMock _ (Returned ([article_good], [content_reset])))
      (MockLLMService.service _)
      q_general_confident d_general_confident demo_student_hash
      "Where is the library?" store_fresh
    = (Returned r, st')
    /\ ticket_id r = None
    /\ status r = ActionStatus.KB_ONLY
    /\ String.prefix "I've found some helpful information from IT Support."
         (user_message r) = true.
Proof.
  destruct (ActionAgent.execute MockTicketService.service
              (KnowledgeMock _ (Returned ([article_good], [content_reset])))
              (MockLLMService.service _)
              q_general_confident d_general_confident demo_student_hash
              "Where is the library?" store_fresh)
    as [[r | e] st'] eqn:H;
    [ | exfalso; vm_compute in H; discriminate H ].
  exists r, st'. split; [reflexivity | ].
  destruct (execute_message_by_status _ _ _ _ _ _ _ _ _ H eq_refl)
    as (name & Hn & Hm).
  injection Hn as <-.
  assert (Hid : ticket_id r = None).
  { vm_compute in H. injection H as <- _. reflexivity. }
  rewrite Hid in Hm. destruct Hm as (Hs & Hp).
  split; [exact Hid | split; [exact Hs | exact Hp]].
Defined.

Lemma chat_records_validate_witness :
  exists r st',
    ActionAgent.execute MockTicketService.service
      (KnowledgeMock _ (Returned ([article_good], [content_reset])))
      (MockLLMService.service _)
      q_grade_appeal d_grade_appeal demo_student_hash
      "I want to appeal my grade" store_fresh
    = (Returned r, st')
    /\ AuditLog_require_reason_if_escalated (escalated r)
         (Some "policy_keyword_detected") = true
    /\ validate_ticket_id (ticket_id r) = true.
Proof.
  destruct (ActionAgent.execute MockTicketService.service
              (KnowledgeMock _ (Returned ([article_good], [content_reset])))
              (MockLLMService.service _)
              q_grade_appeal d_grade_appeal demo_student_hash
              "I want to appeal my grade" store_fresh)
    as [[r | e] st'] eqn:H;
    [ | exfalso; vm_compute in H; discriminate H ].
  exists r, st'. split; [reflexivity | ].
  assert (Hr : RouterAgent.route default_settings q_grade_appeal 0
               = Returned d_grade_appeal) by (vm_compute; reflexivity).
  destruct (chat_records_validate _ _ _ _ _ _ _ _ _ _ _ _ Hr H)
    as (Ha & Hv & _).
  split; [exact Ha | exact Hv].
Defined.

(** ** The ticket service, continued *)














Section TicketServiceProperties.
Import MockTicketService.


(** What [create_ticket] returns and the store it leaves, written out. *)
Lemma create_ticket_unfold
    (dep : Department.t) (prio : Priority.t) (summary descr h : string)
    (ents : list (string * EntityValue)) (st : Store) :
  create_ticket dep prio summary descr h ents st
  = let seq := default 0 (_ticket_counter st !! counter_key dep st) + 1 in
    let id := "TKT-" +:+ dept_code dep +:+ "-" +:+ strftime_Ymd (today st)
              +:+ "-" +:+ format_04d seq in
    (Returned (id, "https://servicenow.university.edu/ticket/" +:+ id),
     {| today := today st;
        now_isoformat := now_isoformat st;
        _tickets :=
          <[id := {| t_ticket_id := id;
                     t_department := Department.value dep;
                     t_status := "open";
                     t_priority := Priority.value prio;
                     t_summary := str_take 200 summary;
                     t_description := descr;
                     t_created_at := now_isoformat st;
                     t_updated_at := now_isoformat st;
                     t_assigned_to := None;
                     t_student_id_hash := h;
                     t_resolution_summary := None;
                     t_entities := ents |}]> (_tickets st);
        _ticket_counter :=
          <[counter_key dep st := seq]> (_ticket_counter st) |}).
Proof. reflexivity. Qed.

(** X17. [create_ticket] always returns: the id its generator gives and the
    url built on it. Afterwards the store holds, under this id, an open
    ticket with the department, the priority, the description, the hash and
    the entities that were passed and the summary cut at 200 characters;
    every other ticket is as before; the counter of the department for the
    day is one more and the other counters are as before. *)
Theorem create_ticket_stores
    (dep : Department.t) (prio : Priority.t) (summary descr h : string)
    (ents : list (string * EntityValue)) (st : Store) :
  exists id st',
    create_ticket dep prio summary descr h ents st
    = (Returned (id, "https://servicenow.university.edu/ticket/" +:+ id), st')
    /\ fst (_generate_ticket_id dep st) = Returned id
    /\ _tickets st' !! id
       = Some {| t_ticket_id := id;
                 t_department := Department.value dep;
                 t_status := "open";
                 t_priority := Priority.value prio;
                 t_summary := str_take 200 summary;
                 t_description := descr;
                 t_created_at := now_isoformat st;
                 t_updated_at := now_isoformat st;
                 t_assigned_to := None;
                 t_student_id_hash := h;
                 t_resolution_summary := None;
                 t_entities := ents |}
    /\ (String.length (str_take 200 summary) <= 200)%nat
    /\ (forall id', id' <> id -> _tickets st' !! id' = _tickets st !! id')
    /\ _ticket_counter st' !! counter_key dep st
       = Some (default 0 (_ticket_counter st !! counter_key dep st) + 1)
    /\ (forall k, k <> counter_key dep st ->
          _ticket_counter st' !! k = _ticket_counter st !! k)
    /\ today st' = today st.
Proof.
  rewrite create_ticket_unfold. cbv zeta.
  eexists. eexists. split; [reflexivity | ].
  cbn [fst snd today now_isoformat _tickets _ticket_counter].
  split; [reflexivity | ].
  split; [apply lookup_insert_eq | ].
  split; [apply str_take_length | ].
  split; [intros id' Hne; apply lookup_insert_ne; congruence | ].
  split; [apply lookup_insert_eq | ].
  split; [intros k Hne; apply lookup_insert_ne; congruence | reflexivity].
Qed.


(** X19. [delete_ticket] answers true exactly when the id was in the store.
    Afterwards the id is not in the store, every other ticket is as before
    and so are the counters; deleting the same id again answers false and
    changes nothing. *)
Theorem delete_ticket_spec (id : string) (st : Store) :
  exists b st',
    delete_ticket id st = (Returned b, st')
    /\ (b = true <-> is_Some (_tickets st !! id))
    /\ _tickets st' !! id = None
    /\ (forall id', id' <> id -> _tickets st' !! id' = _tickets st !! id')
    /\ _ticket_counter st' = _ticket_counter st
    /\ delete_ticket id st' = (Returned false, st').
Proof.
  unfold delete_ticket. destruct (_tickets st !! id) as [t | ] eqn:Hl.
  - eexists; eexists. split; [reflexivity | ].
    cbn [_tickets _ticket_counter].
    split; [split; [intros _; eexists; reflexivity | reflexivity] | ].
    split; [apply lookup_delete_eq | ].
    split; [intros id' Hne; apply lookup_delete_ne; congruence | ].
    split; [reflexivity | ].
    rewrite lookup_delete_eq. reflexivity.
  - exists false, st. split; [reflexivity | ].
    split; [split; [discriminate | intros [x Hx]; discriminate Hx] | ].
    split; [exact Hl | ].
    split; [reflexivity | ].
    split; [reflexivity | ].
    rewrite Hl. reflexivity.
Qed.


Lemma Department_of_value (d : Department.t) :
  enum_of_value Department.members Department.value (Department.value d)
  = Ok d.
Proof. destruct d; reflexivity. Qed.

Lemma Priority_of_value (p : Priority.t) :
  enum_of_value Priority.members Priority.value (Priority.value p) = Ok p.
Proof. destruct p; reflexivity. Qed.

Lemma TicketStatus_of_value (s : TicketStatus.t) :
  enum_of_value TicketStatus.members TicketStatus.value (TicketStatus.value s)
  = Ok s.
Proof. destruct s; reflexivity. Qed.

Lemma Priority_value_nonempty (p : Priority.t) :
  bool_decide (Priority.value p = "") = false.
Proof. destruct p; reflexivity. Qed.

Variable datetime : Type.
Variable fromisoformat : string -> option datetime.

(** X21. A ticket that was just created is read back by
    [get_ticket_status] as it was created: same id, department and
    priority, status open, the summary cut at 200 characters, the
    description, nobody assigned and no resolution; provided the time the
    clock printed parses as a date. *)
Theorem get_after_create
    (dep : Department.t) (prio : Priority.t) (summary descr h : string)
    (ents : list (string * EntityValue)) (st : Store) (now : datetime) :
  fromisoformat (str_replace_char_by "Z" "+00:00" (now_isoformat st))
  = Some now ->
  now_isoformat st <> "" ->
  exists id url st',
    create_ticket dep prio summary descr h ents st = (Returned (id, url), st')
    /\ get_ticket_status datetime fromisoformat id st'
       = Ok (Some {| tsr_ticket_id := id;
                     tsr_department := dep;
                     tsr_status := TicketStatus.OPEN;
                     tsr_priority := Some prio;
                     tsr_summary := Some (str_take 200 summary);
                     tsr_description := Some descr;
                     tsr_created_at := now;
                     tsr_updated_at := Some now;
                     tsr_assigned_to := None;
                     tsr_resolution_summary := None |}).
Proof.
  intros Hparse Hnow.
  rewrite create_ticket_unfold. cbv zeta.
  eexists; eexists; eexists. split; [reflexivity | ].
  unfold get_ticket_status. cbn [_tickets]. rewrite lookup_insert_eq.
  cbn [t_department t_status t_priority t_created_at t_updated_at
       t_ticket_id t_summary t_description t_assigned_to
       t_resolution_summary].
  rewrite Department_of_value. cbn [result_bind].
  change "open" with (TicketStatus.value TicketStatus.OPEN).
  rewrite TicketStatus_of_value. cbn [result_bind].
  unfold priority_of. cbn [t_priority].
  rewrite Priority_value_nonempty, Priority_of_value. cbn [result_bind].
  unfold parse_timestamp. rewrite Hparse. cbn [result_bind].
  rewrite (bool_decide_eq_false_2 _ Hnow). cbn [result_bind].
  reflexivity.
Qed.

(** X22. [update_ticket_status] on an id that is not in the store answers
    nothing and leaves the store as it is. On a stored ticket it writes the
    new status and the time of the clock; the assignee and the resolution
    are replaced only when given; the id, the department, the priority, the
    summary, the description, the creation time and the hash of the ticket
    are kept; the other tickets and the counters are as before. *)
Theorem update_ticket_status_store
    (id : string) (new_status : TicketStatus.t)
    (assigned_to resolution_summary : option string) (st : Store) :
  let run :=
    update_ticket_status datetime fromisoformat id new_status assigned_to
      resolution_summary st in
  (_tickets st !! id = None -> run = (Ok None, st))
  /\ (forall t, _tickets st !! id = Some t ->
      exists t',
        _tickets (snd run) !! id = Some t'
        /\ t_status t' = TicketStatus.value new_status
        /\ t_updated_at t' = now_isoformat st
        /\ t_assigned_to t' = from_option Some (t_assigned_to t) assigned_to
        /\ t_resolution_summary t'
           = from_option Some (t_resolution_summary t) resolution_summary
        /\ t_ticket_id t' = t_ticket_id t
        /\ t_department t' = t_department t
        /\ t_priority t' = t_priority t
        /\ t_summary t' = t_summary t
        /\ t_description t' = t_description t
        /\ t_created_at t' = t_created_at t
        /\ t_student_id_hash t' = t_student_id_hash t)
  /\ (forall id', id' <> id ->
        _tickets (snd run) !! id' = _tickets st !! id')
  /\ _ticket_counter (snd run) = _ticket_counter st.
Proof.
  cbv zeta. unfold update_ticket_status.
  destruct (_tickets st !! id) as [t | ] eqn:Hl.
  - cbv zeta. cbn [snd _tickets _ticket_counter].
    split; [discriminate | ].
    split; [ | split; [intros id' Hne; apply lookup_insert_ne; congruence
                      | reflexivity]].
    intros t0 Ht0. injection Ht0 as <-.
    eexists. split; [apply lookup_insert_eq | ].
    cbn. destruct assigned_to, resolution_summary; repeat split.
  - cbn [snd]. split; [reflexivity | ].
    split; [intros t Ht; discriminate Ht | split; reflexivity].
Qed.

(** X23. When [update_ticket_status] returns a ticket, a later
    [get_ticket_status] of the same id returns the same ticket; it carries
    the new status and, when an assignee was given, this assignee. *)
Theorem update_then_get
    (id : string) (new_status : TicketStatus.t)
    (assigned_to resolution_summary : option string) (st st' : Store)
    (r : TicketStatusResponse datetime) :
  now_isoformat st <> "" ->
  update_ticket_status datetime fromisoformat id new_status assigned_to
    resolution_summary st
  = (Ok (Some r), st') ->
  get_ticket_status datetime fromisoformat id st' = Ok (Some r)
  /\ tsr_status r = new_status
  /\ (forall a, assigned_to = Some a -> tsr_assigned_to r = Some a).
Proof.
  intros Hnow. unfold update_ticket_status, get_ticket_status.
  destruct (_tickets st !! id) as [t | ]; [ | discriminate].
  cbv zeta. intros H. injection H as H <-. cbn [_tickets].
  rewrite lookup_insert_eq.
  cbn [t_department t_status t_priority t_created_at t_updated_at
       t_ticket_id t_summary t_description t_assigned_to
       t_resolution_summary] in *.
  rewrite (bool_decide_eq_false_2 _ Hnow).
  rewrite TicketStatus_of_value in *.
  destruct (enum_of_value Department.members Department.value
              (t_department t))
    as [d | e]; cbn [result_bind] in *; [ | discriminate].
  unfold priority_of in *. cbn [t_priority] in *.
  destruct (bool_decide (t_priority t = ""));
    [ | destruct (enum_of_value Priority.members Priority.value
                    (t_priority t))
          as [p | e]]; cbn [result_bind] in *; try discriminate.
  all: destruct (parse_timestamp datetime fromisoformat (t_created_at t))
         as [c | e]; cbn [result_bind] in *; [ | discriminate].
  all: destruct (parse_timestamp datetime fromisoformat (now_isoformat st))
         as [u | e]; cbn [result_bind] in *; [ | discriminate].
  all: injection H as <-; cbn.
  all: (split; [reflexivity | split; [reflexivity | ]]).
  all: intros a ->; reflexivity.
Qed.

End TicketServiceProperties.

(** X16. With the mock ticket service and the mock LLM service, on a
    calendar day and below 9999 tickets of the department that day:
    whenever the search returns at most three articles, [execute] returns a
    result with these articles. When the ticket decision is positive, the
    result carries an id that matches the pattern and the url built on it,
    and the store holds under this id a ticket with the generated
    description and the hash of the student; otherwise the result carries
    no id and the store is as the search left it. *)
Theorem execute_with_mock_tickets
    (K : KnowledgeServiceInterface MockTicketService.Store)
    (q : QueryResult) (rd : RoutingDecision) (h m : string)
    (st st1 : MockTicketService.Store)
    (articles : list KnowledgeArticle) (contents : list ArticleContent) :
  search_with_content (ActionAgent.search_query_of q)
    (ActionAgent.dept_filter (department rd)) 3 st
  = (Returned (articles, contents), st1) ->
  (length articles <= 3)%nat ->
  MockTicketService.calendar_date (MockTicketService.today st1) ->
  0 <= default 0 (MockTicketService._ticket_counter st1
                    !! MockTicketService.counter_key (department rd) st1)
    < 9999 ->
  exists r st2,
    ActionAgent.execute MockTicketService.service K
      (MockLLMService.service _) q rd h m st
    = (Returned r, st2)
    /\ knowledge_articles r = articles
    /\ (if ActionAgent._should_create_ticket rd articles
        then exists id t,
               ticket_id r = Some id
               /\ ticket_id_matches id = true
               /\ ticket_url r
                  = Some ("https://servicenow.university.edu/ticket/" +:+ id)
               /\ MockTicketService._tickets st2 !! id = Some t
               /\ MockTicketService.t_description t
                  = ActionAgent._generate_ticket_description q m
               /\ MockTicketService.t_student_id_hash t = h
        else ticket_id r = None /\ st2 = st1).
Proof.
  intros Hs Hlen Hdate Hseq.
  unfold ActionAgent.execute, ActionAgent._search_knowledge_with_content,
    eff_bind, eff_ret, eff_lift.
  rewrite Hs.
  assert (Hl : (length articles <=? 3)%nat = true)
    by (apply Nat.leb_le; exact Hlen).
  destruct (ActionAgent._should_create_ticket rd articles).
  - destruct (generate_ticket_id_matches (department rd) st1 Hdate Hseq)
      as (id & st' & Hgen & Hid).
    cbn [create_ticket MockTicketService.service].
    rewrite create_ticket_unfold. cbv zeta.
    assert (Eid : "TKT-" +:+ MockTicketService.dept_code (department rd)
                  +:+ "-"
                  +:+ MockTicketService.strftime_Ymd
                        (MockTicketService.today st1)
                  +:+ "-" +:+
                  format_04d
                    (default 0
                       (MockTicketService._ticket_counter st1
                        !! MockTicketService.counter_key (department rd) st1)
                     + 1)
                  = id).
    { unfold MockTicketService._generate_ticket_id in Hgen. cbv zeta in Hgen.
      injection Hgen as Hgen _. exact Hgen. }
    rewrite Eid.
    cbn [generate_response_message MockLLMService.service eff_ret].
    unfold ActionResult_new. cbn [validate_ticket_id]. rewrite Hid, Hl.
    cbn [app]. eexists; eexists. split; [reflexivity | ].
    cbn [knowledge_articles ticket_id ticket_url MockTicketService._tickets].
    split; [reflexivity | ].
    exists id. eexists.
    split; [reflexivity | split; [exact Hid | split; [reflexivity | ]]].
    split; [apply lookup_insert_eq | split; reflexivity].
  - cbn [generate_response_message MockLLMService.service eff_ret].
    unfold ActionResult_new. cbn [validate_ticket_id]. rewrite Hl. cbn [app].
    eexists; eexists. split; [reflexivity | ].
    cbn. repeat split.
Qed.

Lemma execute_with_mock_tickets_witness :
  exists r st2 id,
    ActionAgent.execute MockTicketService.service
      (KnowledgeMock _ (Returned ([article_poor], [content_reset])))
      (MockLLMService.service _)
      q_password_reset d_password_reset demo_student_hash
      "I forgot my password" store_fresh
    = (Returned r, st2)
    /\ ticket_id r = Some id
    /\ ticket_id_matches id = true
    /\ is_Some (MockTicketService._tickets st2 !! id).
Proof.
  destruct (execute_with_mock_tickets
              (KnowledgeMock _ (Returned ([article_poor], [content_reset])))
              q_password_reset d_password_reset demo_student_hash
              "I forgot my password" store_fresh store_fresh
              [article_poor] [content_reset])
    as (r & st2 & He & _ & Hif).
  - reflexivity.
  - cbn. lia.
  - vm_compute. intuition discriminate.
  - vm_compute. intuition discriminate.
  - change (ActionAgent._should_create_ticket d_password_reset [article_poor])
      with true in Hif.
    destruct Hif as (id & t & Hid & Hm & _ & Ht & _).
    exists r, st2, id.
    split; [exact He | split; [exact Hid | split; [exact Hm | ]]].
    rewrite Ht. eexists; reflexivity.
Defined.

Lemma get_after_create_witness :
  exists id url st',
    MockTicketService.create_ticket Department.IT Priority.MEDIUM
      "Password Reset request" "Intent: password_reset" demo_student_hash []
      store_fresh
    = (Returned (id, url), st')
    /\ MockTicketService.get_ticket_status string Some id st'
       = Ok (Some {| tsr_ticket_id := id;
                     tsr_department := Department.IT;
                     tsr_status := TicketStatus.OPEN;
                     tsr_priority := Some Priority.MEDIUM;
                     tsr_summary := Some (str_take 200 "Password Reset request");
                     tsr_description := Some "Intent: password_reset";
                     tsr_created_at := "2026-01-20T09:30:00+00:00";
                     tsr_updated_at := Some "2026-01-20T09:30:00+00:00";
                     tsr_assigned_to := None;
                     tsr_resolution_summary := None |}).
Proof.
  apply (get_after_create string Some Department.IT Priority.MEDIUM
           "Password Reset request" "Intent: password_reset"
           demo_student_hash [] store_fresh "2026-01-20T09:30:00+00:00").
  - vm_compute. reflexivity.
  - discriminate.
Defined.

Lemma update_then_get_witness :
  exists r st',
    MockTicketService.update_ticket_status string Some
      "TKT-IT-20260120-0001" TicketStatus.RESOLVED (Some "Dana") None
      store_one_ticket
    = (Ok (Some r), st')
    /\ MockTicketService.get_ticket_status string Some
         "TKT-IT-20260120-0001" st'
       = Ok (Some r)
    /\ tsr_status r = TicketStatus.RESOLVED
    /\ tsr_assigned_to r = Some "Dana".
Proof.
  destruct (MockTicketService.update_ticket_status string Some
              "TKT-IT-20260120-0001" TicketStatus.RESOLVED (Some "Dana") None
              store_one_ticket) as [[[r | ] | e] st'] eqn:H;
    [ | exfalso; vm_compute in H; discriminate H
      | exfalso; vm_compute in H; discriminate H ].
  exists r, st'. split; [reflexivity | ].
  assert (Hnow : MockTicketService.now_isoformat store_one_ticket <> "")
    by (vm_compute; discriminate).
  destruct (update_then_get string Some "TKT-IT-20260120-0001"
              TicketStatus.RESOLVED (Some "Dana") None store_one_ticket st' r
              Hnow H) as (Hg & Hs & Ha).
  split; [exact Hg | split; [exact Hs | apply Ha; reflexivity]].
Defined.

(** ** The pattern of the ticket ids *)





(** An id followed by a line feed is accepted, an id followed by a space is
    not. *)
Example validate_ticket_id_line_feed :
  validate_ticket_id (Some ("TKT-IT-20260121-0001" +:+ newline)) = true
  /\ validate_ticket_id (Some "TKT-IT-20260121-0001 ") = false.
Proof. split; vm_compute; reflexivity. Qed.

(** ** The clarification question *)

(** X25. [generate_clarification_question] raises IndexError on an empty
    list of intents and returns a question for every other list; it looks
    at the first three intents only; and for the two intents the chat
    endpoint passes, the detected one and general_question, the question
    offers the detected intent or general university information. *)
Theorem clarification_question_spec (m : string) (l : list string) :
  MockLLMService.generate_clarification_question m [] = Err IndexError
  /\ (l <> [] ->
      exists s, MockLLMService.generate_clarification_question m l = Ok s)
  /\ MockLLMService.generate_clarification_question m l
     = MockLLMService.generate_clarification_question m (take 3 l)
  /\ (forall i,
        MockLLMService.generate_clarification_question m
          [i; "general_question"]
        = Ok ("I want to make sure I understand. Are you asking about " +:+
              MockLLMService.option_of i +:+
              " or general university information?")).
Proof.
  split; [reflexivity | split; [ | split; [ | intros i; reflexivity]]].
  - intros Hne. destruct l as [ | a [ | b [ | c rest]]];
      [contradiction | | | ]; eexists; reflexivity.
  - unfold MockLLMService.generate_clarification_question.
    rewrite take_take. reflexivity.
Qed.

(** The question asked for an unclear general question names the same
    option twice. *)
Example clarification_question_general :
  MockLLMService.generate_clarification_question "help"
    [intent q_unclear; "general_question"]
  = Ok "I want to make sure I understand. Are you asking about general university information or general university information?".
Proof. vm_compute. reflexivity. Qed.

(** ** The health endpoint *)

Section HealthProperties.
Context {W datetime : Type}.
Variable llm_service ticket_service knowledge_service session_store
  : HealthCheck W.
Variable utcnow : Eff W datetime.


End HealthProperties.

